(** * The render-context promise cache of [useNunjucks]

    Shallow embedding of
    [packages/insomnia/src/ui/context/nunjucks/use-nunjucks.ts]:
    the module-level table [getRenderContextPromiseCache], its reset
    [initializeNunjucksRenderPromiseCache], and the synchronous part of
    [handleRender] (everything up to the [await]), together with the
    timers that [setTimeout] leaves behind.

    JavaScript runs these pieces on one thread, so the state of the module
    is threaded explicitly: a call of [handleRender], the passing of time
    (which fires the timers that are due) and a reset are the three events
    that change it. *)

From stdpp Require Import gmap strings list fin_maps.
From Stdlib Require Import NArith Lia Ascii.

Local Open Scope string_scope.
Local Open Scope list_scope.
Local Open Scope nat_scope.

(** ** The part of the host object model the hook relies on *)

Module Js.

(** A promise returned by [fetchRenderContext()] is identified by the
    number of the invocation that created it. *)
Abbreviation handle := nat.

(** What a property read on the cache object can produce: [undefined],
    a promise stored by [handleRender], or a member inherited from
    [Object.prototype] (the cache is the literal [{}]). *)
Inductive value :=
| VUndefined
| VPromise (h : handle)
| VInherited (name : string).

(** The property names every object literal inherits. *)
Definition objectPrototypeNames : list string :=
  [ "constructor"; "hasOwnProperty"; "isPrototypeOf"; "propertyIsEnumerable";
    "toLocaleString"; "toString"; "valueOf"; "__proto__";
    "__defineGetter__"; "__defineSetter__"; "__lookupGetter__";
    "__lookupSetter__" ].

Definition inherited (p : string) : bool :=
  bool_decide (p ∈ objectPrototypeNames).

(** [o[p]]: an own property shadows an inherited one. *)
Definition get (o : gmap string handle) (p : string) : value :=
  match o !! p with
  | Some h => VPromise h
  | None => if inherited p then VInherited p else VUndefined
  end.

(** Truthiness of a value read from the cache: promises and the inherited
    functions are objects, hence truthy. *)
Definition truthy (v : value) : bool :=
  match v with
  | VUndefined => false
  | VPromise _ | VInherited _ => true
  end.

(** Truthiness of [contextCacheKey : string | null]: [null] and the empty
    string are the falsy ones. *)
Definition keyTruthy (key : option string) : bool :=
  match key with
  | None => false
  | Some EmptyString => false
  | Some (String _ _) => true
  end.

(** [null] used as an object index is the property ["null"]. *)
Definition toPropertyKey (key : option string) : string :=
  match key with
  | None => "null"
  | Some k => k
  end.

End Js.

(** ** Module state *)

(** A pending [setTimeout] callback. Every callback of this module is
    [() => delete getRenderContextPromiseCache[contextCacheKey]], so a
    timer is its deadline and the property it deletes. *)
Definition timer : Type := N * string.

Record state := mkState {
  getRenderContextPromiseCache : gmap string Js.handle;
  builderCalls : nat;            (* invocations of fetchRenderContext so far *)
  timers : list timer;           (* pending callbacks, oldest first *)
  now : N                        (* clock, in milliseconds *)
}.

Definition init : state :=
  {| getRenderContextPromiseCache := ∅; builderCalls := 0; timers := []; now := 0 |}.

(** [getRenderContextPromiseCache = {}] *)
Definition initializeNunjucksRenderPromiseCache (s : state) : state :=
  {| getRenderContextPromiseCache := ∅;
     builderCalls := builderCalls s;
     timers := timers s;
     now := now s |}.

(** [fetchRenderContext()]: an async function, so the call always returns a
    new promise; which context (or failure) it settles to is up to the
    database and is kept outside the state. *)
Definition fetchRenderContext (s : state) : Js.handle * state :=
  (builderCalls s,
   {| getRenderContextPromiseCache := getRenderContextPromiseCache s;
      builderCalls := S (builderCalls s);
      timers := timers s;
      now := now s |}).

(** [getRenderContextPromiseCache[p] = h] *)
Definition store (p : string) (h : Js.handle) (s : state) : state :=
  {| getRenderContextPromiseCache := <[p := h]> (getRenderContextPromiseCache s);
     builderCalls := builderCalls s;
     timers := timers s;
     now := now s |}.

Definition evictionDelay : N := 5000.

(** [setTimeout(() => delete getRenderContextPromiseCache[p], delay)] *)
Definition setTimeout (p : string) (delay : N) (s : state) : state :=
  {| getRenderContextPromiseCache := getRenderContextPromiseCache s;
     builderCalls := builderCalls s;
     timers := timers s ++ [((now s + delay)%N, p)];
     now := now s |}.

(** The test of line 51:
    [!contextCacheKey || !getRenderContextPromiseCache[contextCacheKey]]. *)
Definition invokesBuilder (contextCacheKey : option string) (s : state) : bool :=
  negb (Js.keyTruthy contextCacheKey)
  || negb (Js.truthy (Js.get (getRenderContextPromiseCache s)
                             (Js.toPropertyKey contextCacheKey))).

(** [handleRender(obj, contextCacheKey)] up to its [await]: the value it
    awaits, and the state it leaves. The value is read back from the table
    (line 61) after the timer has been set (line 59). *)
Definition handleRender (contextCacheKey : option string) (s : state)
  : Js.value * state :=
  let p := Js.toPropertyKey contextCacheKey in
  let s1 :=
    if invokesBuilder contextCacheKey s
    then let '(h, s') := fetchRenderContext s in store p h s'
    else s in
  let s2 := setTimeout p evictionDelay s1 in
  (Js.get (getRenderContextPromiseCache s2) p, s2).

(** ** Timers and events *)

(** The callback of a timer: [delete getRenderContextPromiseCache[p]],
    on whatever object the module variable holds when it runs. *)
Definition fire (p : string) (s : state) : state :=
  {| getRenderContextPromiseCache := delete p (getRenderContextPromiseCache s);
     builderCalls := builderCalls s;
     timers := timers s;
     now := now s |}.

Definition due (t : N) (tm : timer) : Prop := (tm.1 ≤ t)%N.

#[global] Instance due_dec t tm : Decision (due t tm) :=
  decide (tm.1 ≤ t)%N.

(** [ms] milliseconds pass on a punctual host: it runs, oldest first, the
    callbacks whose deadline has been reached, and keeps the others. (A
    host that runs callbacks late is [hostEvent] below.) *)
Definition elapse (ms : N) (s : state) : state :=
  let t := (now s + ms)%N in
  let s' := foldl (λ acc tm, fire tm.2 acc) s (filter (due t) (timers s)) in
  {| getRenderContextPromiseCache := getRenderContextPromiseCache s';
     builderCalls := builderCalls s;
     timers := filter (λ tm, ¬ due t tm) (timers s);
     now := t |}.

Inductive event :=
| Call (contextCacheKey : option string)
| Elapse (ms : N)
| Initialize.

Definition step (ev : event) (s : state) : state :=
  match ev with
  | Call key => (handleRender key s).2
  | Elapse ms => elapse ms s
  | Initialize => initializeNunjucksRenderPromiseCache s
  end.

Fixpoint run (evs : list event) (s : state) : state :=
  match evs with
  | [] => s
  | ev :: evs' => run evs' (step ev s)
  end.

(** [n] calls with the same key, back to back: the values they await, in
    call order, and the final state. *)
Fixpoint handleRenderTimes (n : nat) (key : option string) (s : state)
  : list Js.value * state :=
  match n with
  | O => ([], s)
  | S n' =>
      let '(v, s1) := handleRender key s in
      let '(vs, s2) := handleRenderTimes n' key s1 in
      (v :: vs, s2)
  end.

(** ** Awaiting *)

(** What [await v] gives the caller. The [n]-th promise made by
    [fetchRenderContext] settles to [outcome n]; a value that is not a
    promise is handed back as it is. *)
Inductive awaited (Ctx Err : Type) :=
| Resolved (c : Ctx)
| Failed (e : Err)
| NotAPromise (v : Js.value).

Arguments Resolved {Ctx Err} c.
Arguments Failed {Ctx Err} e.
Arguments NotAPromise {Ctx Err} v.

Definition await {Ctx Err : Type} (outcome : Js.handle → Ctx + Err)
    (v : Js.value) : awaited Ctx Err :=
  match v with
  | Js.VPromise h =>
      match outcome h with
      | inl c => Resolved c
      | inr e => Failed e
      end
  | _ => NotAPromise v
  end.

(** ** Windows of a run *)

(** [never bad evs s]: along the run of [evs] from [s], no event is [bad]
    in the state it is applied to. *)
Fixpoint never (bad : event → state → bool) (evs : list event) (s : state)
  : bool :=
  match evs with
  | [] => true
  | ev :: evs' => negb (bad ev s) && never bad evs' (step ev s)
  end.

(** The event removes property [p] from the table: a timer for [p] comes
    due, or the table is reset. *)
Definition evicts (p : string) (ev : event) (s : state) : bool :=
  match ev with
  | Call _ => false
  | Elapse ms =>
      bool_decide (Exists (λ tm, due (now s + ms) tm ∧ tm.2 = p) (timers s))
  | Initialize => true
  end.

(** The event is a call that stores a promise under property [p]. *)
Definition storesUnder (p : string) (ev : event) (s : state) : bool :=
  match ev with
  | Call key => bool_decide (Js.toPropertyKey key = p) && invokesBuilder key s
  | _ => false
  end.

(** The event is a call without key. *)
Definition withoutKey (ev : event) : Prop := ev = Call None.

(** Every stored promise was made by an earlier builder invocation and has
    a pending timer for its property that is due within the delay. *)
Definition tracked (s : state) : Prop :=
  ∀ (p : string) (h : Js.handle),
    getRenderContextPromiseCache s !! p = Some h →
    h < builderCalls s ∧
    ∃ d : N, (d, p) ∈ timers s ∧ (now s < d ≤ now s + evictionDelay)%N.





(** ** The statements under study, as written in the specification *)


(** The bypass as the specification words it: a call without key invokes
    the builder, awaits the new promise and leaves the table alone. *)
Definition bypassLeavesTable (s : state) : Prop :=
  (handleRender None s).1 = Js.VPromise (builderCalls s) ∧
  builderCalls (handleRender None s).2 = S (builderCalls s) ∧
  getRenderContextPromiseCache (handleRender None s).2
  = getRenderContextPromiseCache s.

(** A failure cached under [k]: if the promise awaited by a call with key
    [k] rejects, then after any events [evs] that do not evict [k] the
    table still holds that promise under [k], and a further call with [k]
    awaits it, sees the same failure and does not invoke the builder. *)
Definition failureShared {Ctx Err : Type} (outcome : Js.handle → Ctx + Err)
    (k : string) (evs : list event) : Prop :=
  ∀ (s : state) (e : Err),
    await outcome (handleRender (Some k) s).1 = Failed e →
    never (evicts k) evs (handleRender (Some k) s).2 = true →
    let s2 := run evs (handleRender (Some k) s).2 in
    (∃ h, (handleRender (Some k) s).1 = Js.VPromise h ∧
          getRenderContextPromiseCache s2 !! k = Some h) ∧
    (handleRender (Some k) s2).1 = (handleRender (Some k) s).1 ∧
    await outcome (handleRender (Some k) s2).1 = Failed e ∧
    builderCalls (handleRender (Some k) s2).2 = builderCalls s2.

(** The three kinds of call the specification distinguishes. *)
Inductive callKind := Bypass | Hit | Populating.

Definition classify (key : option string) (s : state) : callKind :=
  match key with
  | None => Bypass
  | Some k =>
      match getRenderContextPromiseCache s !! k with
      | Some _ => Hit
      | None => Populating
      end
  end.

(** One timer per population, none for a hit or a bypass. *)
Definition timerPerPopulation (key : option string) (s : state) : Prop :=
  timers (handleRender key s).2 =
  timers s ++
    match classify key s with
    | Populating => [((now s + evictionDelay)%N, Js.toPropertyKey key)]
    | Hit | Bypass => []
    end.

(** A timer that was pending when the table was reset, and is still
    pending after the events [evs] that followed, finds its property
    absent, and its callback leaves the table as it is. *)
Definition staleTimerHarmless (s : state) (evs : list event) : Prop :=
  ∀ (d : N) (p : string),
    (d, p) ∈ timers s →
    let s1 := run evs (initializeNunjucksRenderPromiseCache s) in
    (d, p) ∈ timers s1 →
    getRenderContextPromiseCache s1 !! p = None ∧
    getRenderContextPromiseCache (fire p s1) = getRenderContextPromiseCache s1.

(** ** The other entry point of the hook *)

(** [handleGetRenderContext()] (lines 36-40): it awaits a context built by
    its own call of [fetchRenderContext] and then lists the keys of that
    context; it reads neither the table nor the clock. The value is the
    promise it awaits. *)
Definition handleGetRenderContext (s : state) : Js.handle * state :=
  fetchRenderContext s.

(** What can happen to the module once both entry points are in use. *)
Inductive hookEvent :=
| Cache (ev : event)
| GetRenderContext.

Definition hookStep (hev : hookEvent) (s : state) : state :=
  match hev with
  | Cache ev => step ev s
  | GetRenderContext => (handleGetRenderContext s).2
  end.

Fixpoint hookRun (hevs : list hookEvent) (s : state) : state :=
  match hevs with
  | [] => s
  | hev :: hevs' => hookRun hevs' (hookStep hev s)
  end.

(** Every pending timer is due later than now and within the delay. *)
Definition timersWithinDelay (s : state) : Prop :=
  ∀ tm : timer, tm ∈ timers s → (now s < tm.1 ≤ now s + evictionDelay)%N.

(** No promise is stored under a name that the table inherits. *)
Definition inheritedNamesFree (s : state) : Prop :=
  ∀ p : string, Js.inherited p = true →
    getRenderContextPromiseCache s !! p = None.

(** ** A host whose timers may run late *)

(** [setTimeout] promises only that a callback does not run before its
    delay has passed; when it runs after that is up to the host. Here the
    clock and the callbacks are separate events: time passes without any
    callback running, and the host runs one pending callback, whichever it
    picks, provided it is due. *)
Inductive hostEvent :=
| HostCall (contextCacheKey : option string)
| HostGetRenderContext
| HostAdvance (ms : N)
| HostTimer (i : nat)
| HostInitialize.

(** [ms] milliseconds pass and nothing runs. *)
Definition advance (ms : N) (s : state) : state :=
  {| getRenderContextPromiseCache := getRenderContextPromiseCache s;
     builderCalls := builderCalls s;
     timers := timers s;
     now := (now s + ms)%N |}.

(** The host runs the pending callback at position [i], if there is one and
    it is due; the callback is then no longer pending. *)
Definition runTimer (i : nat) (s : state) : state :=
  match timers s !! i with
  | Some tm =>
      if decide (due (now s) tm)
      then fire tm.2
             {| getRenderContextPromiseCache := getRenderContextPromiseCache s;
                builderCalls := builderCalls s;
                timers := delete i (timers s);
                now := now s |}
      else s
  | None => s
  end.

Definition hostStep (hev : hostEvent) (s : state) : state :=
  match hev with
  | HostCall key => (handleRender key s).2
  | HostGetRenderContext => (handleGetRenderContext s).2
  | HostAdvance ms => advance ms s
  | HostTimer i => runTimer i s
  | HostInitialize => initializeNunjucksRenderPromiseCache s
  end.

Fixpoint hostRun (hevs : list hostEvent) (s : state) : state :=
  match hevs with
  | [] => s
  | hev :: hevs' => hostRun hevs' (hostStep hev s)
  end.

(** Along the run of [hevs] from [s], no call stores a promise under
    property [p]. *)
Fixpoint neverStores (p : string) (hevs : list hostEvent) (s : state)
  : bool :=
  match hevs with
  | [] => true
  | hev :: hevs' =>
      negb match hev with
           | HostCall key =>
               bool_decide (Js.toPropertyKey key = p) && invokesBuilder key s
           | _ => false
           end
      && neverStores p hevs' (hostStep hev s)
  end.

(** Every stored promise was made by an earlier builder invocation and has
    a pending timer for its property, due at most the delay from now. *)
Definition everyEntryHasTimer (s : state) : Prop :=
  ∀ (p : string) (h : Js.handle),
    getRenderContextPromiseCache s !! p = Some h →
    h < builderCalls s ∧
    ∃ d : N, (d, p) ∈ timers s ∧ (d ≤ now s + evictionDelay)%N.

(** No pending timer is due later than the delay from now. *)
Definition timersDueWithinDelay (s : state) : Prop :=
  ∀ tm : timer, tm ∈ timers s → (tm.1 ≤ now s + evictionDelay)%N.

(** The statement of the specification on expiry: the promise stored by a
    call that invokes the builder is out of the table once the delay has
    passed on the clock. *)
Definition removedAfterDelay (key : option string) (s : state)
    (hevs : list hostEvent) : Prop :=
  invokesBuilder key s = true →
  (now s + evictionDelay ≤ now (hostRun hevs (handleRender key s).2))%N →
  getRenderContextPromiseCache (hostRun hevs (handleRender key s).2)
    !! Js.toPropertyKey key ≠ Some (builderCalls s).

(** ** String operations of the host used by the request pane *)

Module JsString.

(** [hay.includes(needle)] *)
Fixpoint includes (needle hay : string) : bool :=
  String.prefix needle hay ||
  match hay with
  | EmptyString => false
  | String _ hay' => includes needle hay'
  end.

(** [c.toLowerCase()] for one character: the letters [A]-[Z] move to
    [a]-[z]; every other byte stays. *)
Definition lowerAscii (c : ascii) : ascii :=
  let n := N_of_ascii c in
  if ((65 <=? n) && (n <=? 90))%N then ascii_of_N (n + 32) else c.

(** [s.toLowerCase()] *)
Fixpoint toLowerCase (s : string) : string :=
  match s with
  | EmptyString => EmptyString
  | String c s' => String (lowerAscii c) (toLowerCase s')
  end.

(** [s.split(';')[0]]: the text before the first semicolon. *)
Fixpoint beforeSemicolon (s : string) : string :=
  match s with
  | EmptyString => EmptyString
  | String c s' =>
      if Ascii.eqb c ";"%char then EmptyString
      else String c (beforeSemicolon s')
  end.

(** [s.replace(/\\\\n/g, '')]: the pattern is a backslash, a backslash and
    the letter n; every match, found from left to right, is dropped. *)
Fixpoint stripEscapedNewlines (s : string) : string :=
  match s with
  | EmptyString => EmptyString
  | String c1 rest =>
      match rest with
      | String c2 (String c3 rest') =>
          if Ascii.eqb c1 "\" && Ascii.eqb c2 "\" && Ascii.eqb c3 "n"
          then stripEscapedNewlines rest'
          else String c1 (stripEscapedNewlines rest)
      | _ => String c1 (stripEscapedNewlines rest)
      end
  end.

(** The pieces [us], each followed by [sep], and then the piece [u]. *)
Fixpoint joinWith (sep : string) (us : list string) (u : string) : string :=
  match us with
  | [] => u
  | v :: us' => v +:+ sep +:+ joinWith sep us' u
  end.

(** Truthiness of a string. *)
Definition nonEmpty (s : string) : bool :=
  match s with
  | EmptyString => false
  | String _ _ => true
  end.

End JsString.

(** ** The request pane: [newBodyGraphQL] and [updateMimeType] *)

Module Pane.

(** A header object, with the two fields [updateMimeType] reads and
    writes. *)
Record RequestHeader := mkHeader {
  name : string;
  value : string
}.

(** [hs'] holds the header objects of [hs] at the same positions; the one
    at position [i], if any, may have got another value. *)
Definition keptInPlace (i : option nat) (hs hs' : list RequestHeader) : Prop :=
  name <$> hs' = name <$> hs ∧
  ∀ j : nat, i ≠ Some j → hs' !! j = hs !! j.

(** What [request-pane.tsx] imports and the sources at hand do not
    contain: constants, the helpers it calls, the version of the package,
    and whether [JSON.parse] accepts a text. [getContentTypeHeader] returns
    one of the header objects of the array it is given, or [null]; the
    object is identified by its position, and a position outside the array
    stands for [null]. *)
Class Imports := {
  Param : Type;
  CONTENT_TYPE_FILE : string;
  CONTENT_TYPE_FORM_DATA : string;
  CONTENT_TYPE_FORM_URLENCODED : string;
  CONTENT_TYPE_GRAPHQL : string;
  CONTENT_TYPE_JSON : string;
  CONTENT_TYPE_OTHER : string;
  METHOD_POST : string;
  version : string;
  getContentTypeHeader : list RequestHeader → option nat;
  deconstructQueryStringToParams : string → list Param;
  jsonParses : string → bool
}.

Section WithImports.

Context `{I : Imports}.

(** A request body; every field may be absent, and [{}] has none. *)
Record RequestBody := mkBody {
  mimeType : option string;
  text : option string;
  fileName : option string;
  params : option (list Param)
}.

Definition emptyBody : RequestBody :=
  {| mimeType := None; text := None; fileName := None; params := None |}.

(** [Object.keys(b).length === 0] *)
Definition hasNoKeys (b : RequestBody) : bool :=
  match b.(mimeType), b.(text), b.(fileName), b.(params) with
  | None, None, None, None => true
  | _, _, _, _ => false
  end.

(** [b.text || ''] *)
Definition textOrEmpty (b : RequestBody) : string :=
  match b.(text) with
  | Some t => t
  | None => ""
  end.

(** [b.text ? deconstructQueryStringToParams(b.text) : []] *)
Definition paramsFromText (b : RequestBody) : list Param :=
  match b.(text) with
  | Some t => if JsString.nonEmpty t then deconstructQueryStringToParams t else []
  | None => []
  end.

(** The fields of a request the pane works with. *)
Record Request := mkRequest {
  url : string;
  method : string;
  headers : list RequestHeader;
  body : RequestBody
}.

(** The two form types, and the types that are none of the four
    [updateMimeType] tests for. *)
Definition formType (m : string) : Prop :=
  m = CONTENT_TYPE_FORM_URLENCODED ∨ m = CONTENT_TYPE_FORM_DATA.

Definition rawType (m : string) : Prop :=
  m ≠ CONTENT_TYPE_FORM_URLENCODED ∧ m ≠ CONTENT_TYPE_FORM_DATA ∧
  m ≠ CONTENT_TYPE_FILE ∧ m ≠ CONTENT_TYPE_GRAPHQL.

(** [newBodyGraphQL(rawBody)] (lines 70-88). [JSON.parse] of a string
    either returns or throws a [SyntaxError]. *)
Definition newBodyGraphQL (rawBody : string) : RequestBody :=
  if jsonParses rawBody
  then {| mimeType := Some CONTENT_TYPE_GRAPHQL;
          text := Some (JsString.stripEscapedNewlines rawBody);
          fileName := None; params := None |}
  else {| mimeType := Some CONTENT_TYPE_GRAPHQL;
          text := Some rawBody;
          fileName := None; params := None |}.

(** What [updateMimeType] hands to the database layer. *)
Inductive saved :=
| create (newRequest : Request)
| update (request : Request) (headers : list RequestHeader)
         (body : RequestBody).

(** [h.value = v] on a header object. *)
Definition setValue (v : string) (h : RequestHeader) : RequestHeader :=
  {| name := h.(name); value := v |}.

(** The header object found by [getContentTypeHeader], with its
    position. *)
Definition findContentTypeHeader (hs : list RequestHeader)
  : option (nat * RequestHeader) :=
  match getContentTypeHeader hs with
  | Some i =>
      match hs !! i with
      | Some h => Some (i, h)
      | None => None
      end
  | None => None
  end.

(** [h?.name?.toLowerCase() === 'user-agent'] *)
Definition isUserAgent (h : RequestHeader) : bool :=
  bool_decide (JsString.toLowerCase h.(name) = "user-agent").

(** Lines 105-116. *)
Definition leaveContentTypeAlone
    (contentTypeHeader : option (nat * RequestHeader))
    (mimeType : option string) : bool :=
  match contentTypeHeader, mimeType with
  | Some (_, h), Some m =>
      JsString.nonEmpty m &&
      ((JsString.includes "xml" h.(value) && JsString.includes "xml" m)
       || (JsString.includes "json" h.(value) && JsString.includes "json" m))
  | _, _ => false
  end.

(** Lines 121-134: the copy [headers] after the Content-Type update, and
    the headers of [request] itself, whose objects the copy shares. A
    position of the array stands for the object it holds: the array is
    taken to hold a different object at every position, as the headers of
    a stored request do. (Were one object held at two positions, the
    filter of line 124 and the write of line 128, which go by the object,
    would reach both.) *)
Definition updateContentTypeHeader (mimeType : option string)
    (requestHeaders : list RequestHeader)
  : list RequestHeader * list RequestHeader :=
  let headers := requestHeaders in
  let contentTypeHeader := findContentTypeHeader headers in
  let contentTypeHeaderValue :=
    if bool_decide (mimeType = Some CONTENT_TYPE_GRAPHQL)
    then CONTENT_TYPE_JSON else default "" mimeType in
  match mimeType with
  | None =>
      match contentTypeHeader with
      | Some (i, _) => (delete i headers, requestHeaders)
      | None => (headers, requestHeaders)
      end
  | Some m =>
      if bool_decide (m = CONTENT_TYPE_OTHER) then (headers, requestHeaders)
      else if JsString.nonEmpty m then
        match contentTypeHeader with
        | Some (i, _) =>
            if leaveContentTypeAlone contentTypeHeader mimeType
            then (headers, requestHeaders)
            else (alter (setValue contentTypeHeaderValue) i headers,
                  alter (setValue contentTypeHeaderValue) i requestHeaders)
        | None =>
            (headers ++ [ {| name := "Content-Type";
                             value := contentTypeHeaderValue |} ],
             requestHeaders)
        end
      else (headers, requestHeaders)
  end.

(** How many of the headers are named User-Agent, in any case. *)
Definition userAgentCount (hs : list RequestHeader) : nat :=
  length (filter (λ h, isUserAgent h = true) hs).

(** Lines 135-140. *)
Definition addUserAgent (headers : list RequestHeader) : list RequestHeader :=
  if existsb isUserAgent headers then headers
  else headers ++ [ {| name := "User-Agent"; value := "Insomnia/" +:+ version |} ].

(** Lines 145-191, without the in-place write of lines 175-177. *)
Definition newBody (mimeType : option string) (oldBody : RequestBody)
  : RequestBody :=
  match mimeType with
  | Some m =>
      if bool_decide (m = CONTENT_TYPE_FORM_URLENCODED) then
        {| mimeType := Some CONTENT_TYPE_FORM_URLENCODED; text := None;
           fileName := None;
           params := Some (match oldBody.(params) with
                           | Some ps => ps
                           | None => paramsFromText oldBody
                           end) |}
      else if bool_decide (m = CONTENT_TYPE_FORM_DATA) then
        {| mimeType := Some CONTENT_TYPE_FORM_DATA; text := None;
           fileName := None;
           params := Some (match oldBody.(params) with
                           | Some ps => ps
                           | None => paramsFromText oldBody
                           end) |}
      else if bool_decide (m = CONTENT_TYPE_FILE) then
        {| mimeType := Some CONTENT_TYPE_FILE; text := None;
           fileName := Some ""; params := None |}
      else if bool_decide (m = CONTENT_TYPE_GRAPHQL) then
        newBodyGraphQL (textOrEmpty oldBody)
      else
        {| mimeType := Some (JsString.beforeSemicolon m);
           text := Some (textOrEmpty oldBody);
           fileName := None; params := None |}
  | None => emptyBody
  end.

(** Lines 175-177: in the GraphQL branch the value of the Content-Type
    header object, if there is one, is set once more. [hs] is an array
    that holds the object at its original position. *)
Definition setGraphQLContentType (mimeType : option string)
    (contentTypeHeader : option (nat * RequestHeader))
    (hs : list RequestHeader) : list RequestHeader :=
  match mimeType, contentTypeHeader with
  | Some m, Some (i, _) =>
      if bool_decide (m = CONTENT_TYPE_FORM_URLENCODED) then hs
      else if bool_decide (m = CONTENT_TYPE_FORM_DATA) then hs
      else if bool_decide (m = CONTENT_TYPE_FILE) then hs
      else if bool_decide (m = CONTENT_TYPE_GRAPHQL)
      then alter (setValue CONTENT_TYPE_JSON) i hs
      else hs
  | _, _ => hs
  end.

(** [updateMimeType(request, mimeType, doCreate, savedBody)]
    (lines 89-208). The writes to [request.method] and to the value of the
    Content-Type header object happen in place, so the request passed on
    carries them. *)
Definition updateMimeType (request : Request) (mimeType : option string)
    (doCreate : bool) (savedBody : RequestBody) : saved :=
  let contentTypeHeader := findContentTypeHeader request.(headers) in
  let isGraphQL := bool_decide (mimeType = Some CONTENT_TYPE_GRAPHQL) in
  let method' := if isGraphQL then METHOD_POST else request.(method) in
  let requestBody := request.(body) in
  let '(headers, requestHeaders) :=
    updateContentTypeHeader mimeType request.(headers) in
  let headers := addUserAgent headers in
  let oldBody := if hasNoKeys savedBody then requestBody else savedBody in
  let headers := setGraphQLContentType mimeType contentTypeHeader headers in
  let requestHeaders :=
    setGraphQLContentType mimeType contentTypeHeader requestHeaders in
  let body := newBody mimeType oldBody in
  let request' :=
    {| url := request.(url); method := method';
       headers := requestHeaders; body := requestBody |} in
  if doCreate
  then create {| url := request'.(url); method := request'.(method);
                 headers := headers; body := body |}
  else update request' headers body.

(** The headers and the body handed over, whichever way. *)
Definition savedHeaders (r : saved) : list RequestHeader :=
  match r with
  | create newRequest => newRequest.(headers)
  | update _ headers _ => headers
  end.

Definition savedBodyOf (r : saved) : RequestBody :=
  match r with
  | create newRequest => newRequest.(body)
  | update _ _ body => body
  end.

(** The request object as [updateMimeType] leaves it. *)
Definition savedRequest (r : saved) : Request :=
  match r with
  | create newRequest => newRequest
  | update request _ _ => request
  end.

End WithImports.

(** One choice of the imported values, to run the definitions on: the
    first header named Content-Type whatever its case, a query string kept
    as one parameter, and a stand-in for [JSON.parse] that accepts the
    texts starting with a brace. *)
Definition sampleImports : Imports :=
  {| Param := string * string;
     CONTENT_TYPE_FILE := "application/octet-stream";
     CONTENT_TYPE_FORM_DATA := "multipart/form-data";
     CONTENT_TYPE_FORM_URLENCODED := "application/x-www-form-urlencoded";
     CONTENT_TYPE_GRAPHQL := "application/graphql";
     CONTENT_TYPE_JSON := "application/json";
     CONTENT_TYPE_OTHER := "";
     METHOD_POST := "POST";
     version := "2023.5.0";
     getContentTypeHeader :=
       λ hs, fst <$> list_find
                       (λ h, JsString.toLowerCase h.(name) = "content-type") hs;
     deconstructQueryStringToParams := λ q, [(q, "")];
     jsonParses := λ t, String.prefix "{" t |}.

End Pane.

(** * Properties *)

Example two_calls_share :
  (handleRenderTimes 2 (Some "req-1") init).1 = [Js.VPromise 0; Js.VPromise 0].
Proof. vm_compute. reflexivity. Qed.

Example empty_key_never_shares :
  (handleRenderTimes 2 (Some "") init).1 = [Js.VPromise 0; Js.VPromise 1].
Proof. vm_compute. reflexivity. Qed.

Example inherited_name_is_truthy :
  (handleRender (Some "toString") init).1 = Js.VInherited "toString".
Proof. vm_compute. reflexivity. Qed.

(** ** What one call does to each component of the state *)

Section HandleRenderFacts.

Variables (key : option string) (s : state).

Lemma handleRender_cache :
  getRenderContextPromiseCache (handleRender key s).2 =
  if invokesBuilder key s
  then <[Js.toPropertyKey key := builderCalls s]> (getRenderContextPromiseCache s)
  else getRenderContextPromiseCache s.
Proof. unfold handleRender. by destruct (invokesBuilder key s). Qed.

Lemma handleRender_builderCalls :
  builderCalls (handleRender key s).2 =
  if invokesBuilder key s then S (builderCalls s) else builderCalls s.
Proof. unfold handleRender. by destruct (invokesBuilder key s). Qed.

Lemma handleRender_timers :
  timers (handleRender key s).2 =
  timers s ++ [((now s + evictionDelay)%N, Js.toPropertyKey key)].
Proof. unfold handleRender. by destruct (invokesBuilder key s). Qed.

Lemma handleRender_now : now (handleRender key s).2 = now s.
Proof. unfold handleRender. by destruct (invokesBuilder key s). Qed.

Lemma handleRender_value :
  (handleRender key s).1 =
  Js.get (getRenderContextPromiseCache (handleRender key s).2)
       (Js.toPropertyKey key).
Proof. reflexivity. Qed.

(** A call that invokes the builder awaits the promise just made. *)
Lemma handleRender_fresh :
  invokesBuilder key s = true →
  (handleRender key s).1 = Js.VPromise (builderCalls s).
Proof.
  intros Hb. rewrite handleRender_value, handleRender_cache, Hb.
  unfold Js.get. by rewrite lookup_insert_eq.
Qed.

(** A call that does not invoke the builder leaves the table alone and
    awaits what the table (or the prototype) has for the key. *)
Lemma handleRender_reuse :
  invokesBuilder key s = false →
  (handleRender key s).1
  = Js.get (getRenderContextPromiseCache s) (Js.toPropertyKey key).
Proof.
  intros Hb. by rewrite handleRender_value, handleRender_cache, Hb.
Qed.

End HandleRenderFacts.

#[local] Opaque handleRender.

(** The test of line 51, case by case. *)
Lemma invokesBuilder_falsy key s :
  Js.keyTruthy key = false → invokesBuilder key s = true.
Proof. intros H. unfold invokesBuilder. by rewrite H. Qed.

Lemma invokesBuilder_stored key s h :
  Js.keyTruthy key = true →
  getRenderContextPromiseCache s !! Js.toPropertyKey key = Some h →
  invokesBuilder key s = false.
Proof.
  intros Hk Hc. unfold invokesBuilder, Js.get. by rewrite Hk, Hc.
Qed.

Lemma invokesBuilder_absent key s :
  getRenderContextPromiseCache s !! Js.toPropertyKey key = None →
  Js.inherited (Js.toPropertyKey key) = false →
  invokesBuilder key s = true.
Proof.
  intros Hc Hi. unfold invokesBuilder, Js.get. rewrite Hc, Hi.
  by rewrite orb_true_r.
Qed.

Lemma keyTruthy_Some k : k ≠ "" → Js.keyTruthy (Some k) = true.
Proof. by destruct k. Qed.

(** ** Runs *)

Lemma handleRenderTimes_S n key s :
  handleRenderTimes (S n) key s =
  ((handleRender key s).1 :: (handleRenderTimes n key (handleRender key s).2).1,
   (handleRenderTimes n key (handleRender key s).2).2).
Proof.
  cbn [handleRenderTimes].
  destruct (handleRender key s) as [v s1]. cbn [fst snd].
  by destruct (handleRenderTimes n key s1).
Qed.

Lemma step_builderCalls_mono ev s : builderCalls s ≤ builderCalls (step ev s).
Proof.
  destruct ev as [key| |]; cbn [step]; [|simpl; lia..].
  rewrite handleRender_builderCalls. destruct (invokesBuilder key s); lia.
Qed.

Lemma run_builderCalls_mono evs s : builderCalls s ≤ builderCalls (run evs s).
Proof.
  revert s. induction evs as [|ev evs IH]; intros s; cbn [run]; [lia|].
  pose proof (step_builderCalls_mono ev s). specialize (IH (step ev s)). lia.
Qed.

(** While a truthy key is stored, repeated calls are hits: they await the
    stored promise and never reach the builder. *)
Lemma handleRenderTimes_hit n k h s :
  k ≠ "" →
  getRenderContextPromiseCache s !! k = Some h →
  builderCalls (handleRenderTimes n (Some k) s).2 = builderCalls s ∧
  Forall (λ v, v = Js.VPromise h) (handleRenderTimes n (Some k) s).1.
Proof.
  intros Hk. revert s. induction n as [|n IH]; intros s Hs.
  { simpl. split; [done | constructor]. }
  rewrite handleRenderTimes_S. cbn [fst snd].
  assert (Hb : invokesBuilder (Some k) s = false).
  { eapply invokesBuilder_stored; [by apply keyTruthy_Some | exact Hs]. }
  assert (Hc : getRenderContextPromiseCache (handleRender (Some k) s).2 !! k
               = Some h).
  { by rewrite handleRender_cache, Hb. }
  destruct (IH _ Hc) as [IHb IHv]. split.
  - rewrite IHb, handleRender_builderCalls, Hb. done.
  - constructor; [|done].
    rewrite handleRender_reuse by done. unfold Js.get.
    cbn [Js.toPropertyKey]. by rewrite Hs.
Qed.

(** ** C2: calls without a key *)

(** C2, as stated, fails: a call without key leaves its promise in the
    table. *)
Lemma bypass_populates_table : ¬ bypassLeavesTable init.
Proof.
  intros (_ & _ & Hc).
  assert (Hl : getRenderContextPromiseCache (handleRender None init).2 !! "null"
               = Some 0) by (vm_compute; reflexivity).
  rewrite Hc in Hl. simpl in Hl. by rewrite lookup_empty in Hl.
Qed.

(** C2 (amended): a call without key always invokes [fetchRenderContext]
    and awaits the promise just made, whatever the table holds (the test of
    line 51 does not look at the table); the promise is however stored in
    the table, under the property ["null"], and read back from there. Two
    calls without key never await the same promise. *)
Theorem bypass_fresh_promise (s : state) :
  invokesBuilder None s = true ∧
  (handleRender None s).1 = Js.VPromise (builderCalls s) ∧
  builderCalls (handleRender None s).2 = S (builderCalls s) ∧
  getRenderContextPromiseCache (handleRender None s).2
  = <["null" := builderCalls s]> (getRenderContextPromiseCache s) ∧
  (∀ c, (handleRender None (mkState c (builderCalls s) (timers s) (now s))).1
        = (handleRender None s).1) ∧
  (∀ evs, (handleRender None (run evs (handleRender None s).2)).1
          ≠ (handleRender None s).1).
Proof.
  assert (Hb : ∀ s', invokesBuilder None s' = true) by done.
  split_and!.
  - done.
  - by apply handleRender_fresh.
  - by rewrite handleRender_builderCalls, Hb.
  - by rewrite handleRender_cache, Hb.
  - intros c. by rewrite !handleRender_fresh.
  - intros evs. rewrite !handleRender_fresh by done.
    pose proof (run_builderCalls_mono evs (handleRender None s).2) as Hm.
    rewrite handleRender_builderCalls, Hb in Hm.
    intros [= Heq]. lia.
Qed.

(** ** C4: how many timers a call schedules *)

(** C4, as stated, fails: a cache hit schedules a timer too. *)
Lemma hit_schedules_timer :
  ¬ timerPerPopulation (Some "req-1") (handleRender (Some "req-1") init).2.
Proof. unfold timerPerPopulation. vm_compute. discriminate. Qed.

(** C4 (amended): every call of [handleRender], be it a hit, a miss or a
    call without key, schedules exactly one eviction timer, for the property
    its key stands for and with the same delay of 5000 ms for every key. *)
Theorem every_call_schedules_one_timer (key : option string) (s : state) :
  timers (handleRender key s).2
  = timers s ++ [((now s + 5000)%N, Js.toPropertyKey key)] ∧
  length (timers (handleRender key s).2) = S (length (timers s)).
Proof.
  rewrite handleRender_timers. split; [done|].
  rewrite length_app. simpl. lia.
Qed.

(** ** Timers coming due *)

Lemma foldl_fire_lookup (l : list timer) (s : state) (p : string) :
  getRenderContextPromiseCache (foldl (λ acc tm, fire tm.2 acc) s l) !! p =
  if decide (p ∈ l.*2) then None else getRenderContextPromiseCache s !! p.
Proof.
  revert s. induction l as [|tm l IH]; intros s; cbn [foldl].
  { rewrite decide_False; [done | by apply not_elem_of_nil]. }
  rewrite IH. cbn [fire getRenderContextPromiseCache].
  rewrite fmap_cons.
  destruct (decide (p ∈ l.*2)) as [Hin|Hin].
  - rewrite decide_True; [done | by apply elem_of_cons; right].
  - destruct (decide (p = tm.2)) as [->|Hne].
    + rewrite lookup_delete_eq.
      rewrite decide_True; [done | by apply elem_of_cons; left].
    + rewrite lookup_delete_ne by done.
      rewrite decide_False; [done|].
      intros [?|?]%elem_of_cons; done.
Qed.

Lemma elapse_lookup (ms : N) (s : state) (p : string) :
  getRenderContextPromiseCache (elapse ms s) !! p =
  if evicts p (Elapse ms) s then None else getRenderContextPromiseCache s !! p.
Proof.
  unfold elapse. cbn [getRenderContextPromiseCache evicts].
  rewrite foldl_fire_lookup.
  destruct (decide _) as [Hin|Hin].
  - rewrite bool_decide_eq_true_2; [done|].
    apply list_elem_of_fmap in Hin as ([d q] & -> & Hin).
    apply list_elem_of_filter in Hin as [Hdue Hin].
    apply Exists_exists. by exists (d, q).
  - rewrite bool_decide_eq_false_2; [done|].
    intros ([d q] & Hin' & Hdue & <-)%Exists_exists. apply Hin.
    apply list_elem_of_fmap. exists (d, q). split; [done|].
    by apply list_elem_of_filter.
Qed.

(** A timer for [p] that comes due removes whatever is stored under [p]. *)
Lemma elapse_lookup_due (ms d : N) (s : state) (p : string) :
  (d, p) ∈ timers s → (d ≤ now s + ms)%N →
  getRenderContextPromiseCache (elapse ms s) !! p = None.
Proof.
  intros Hin Hd. rewrite elapse_lookup. cbn [evicts].
  rewrite bool_decide_eq_true_2; [done|].
  apply Exists_exists. by exists (d, p).
Qed.

(** What survives has no timer due. *)
Lemma elapse_lookup_Some (ms : N) (s : state) (p : string) (h : Js.handle) :
  getRenderContextPromiseCache (elapse ms s) !! p = Some h →
  getRenderContextPromiseCache s !! p = Some h ∧
  ∀ d, (d, p) ∈ timers s → (now s + ms < d)%N.
Proof.
  rewrite elapse_lookup. cbn [evicts].
  destruct (bool_decide _) eqn:Hb; [done|].
  intros Hs. split; [done|]. intros d Hin.
  apply bool_decide_eq_false in Hb.
  destruct (decide (d ≤ now s + ms)%N) as [Hle|]; [|lia].
  exfalso. apply Hb, Exists_exists. by exists (d, p).
Qed.

Lemma elapse_timers (ms : N) (s : state) (tm : timer) :
  tm ∈ timers (elapse ms s) ↔ tm ∈ timers s ∧ (now s + ms < tm.1)%N.
Proof.
  unfold elapse. cbn [timers]. rewrite list_elem_of_filter. unfold due.
  split; intros [? ?]; split; try done; lia.
Qed.

Lemma elapse_empty (ms : N) (s : state) :
  getRenderContextPromiseCache s = ∅ →
  getRenderContextPromiseCache (elapse ms s) = ∅.
Proof.
  intros He. apply map_eq. intros p. rewrite elapse_lookup, He, lookup_empty.
  by destruct (evicts _ _ _).
Qed.

(** ** Invariants of a run *)

Lemma tracked_init : tracked init.
Proof. intros p h. cbn. by rewrite lookup_empty. Qed.

Lemma tracked_step (ev : event) (s : state) : tracked s → tracked (step ev s).
Proof.
  intros Hs p h. destruct ev as [key|ms|]; cbn [step].
  - rewrite handleRender_cache, handleRender_builderCalls,
      handleRender_timers, handleRender_now.
    assert (Hold : getRenderContextPromiseCache s !! p = Some h →
              h < S (builderCalls s) ∧ h < builderCalls s ∧
              ∃ d, (d, p) ∈ timers s ++
                     [((now s + evictionDelay)%N, Js.toPropertyKey key)] ∧
                   (now s < d ≤ now s + evictionDelay)%N).
    { intros (Hlt & d & Hin & Hd)%Hs. split; [lia|]. split; [done|].
      exists d. split; [|done]. apply elem_of_app. by left. }
    destruct (invokesBuilder key s).
    + destruct (decide (Js.toPropertyKey key = p)) as [<-|Hne].
      * rewrite lookup_insert_eq. intros [= <-]. split; [lia|].
        exists (now s + evictionDelay)%N. split.
        -- apply elem_of_app. right. by apply list_elem_of_singleton.
        -- unfold evictionDelay. lia.
      * rewrite lookup_insert_ne by done. intros H; apply Hold in H. tauto.
    + intros H; apply Hold in H. tauto.
  - intros [Hc Hd]%elapse_lookup_Some.
    destruct (Hs _ _ Hc) as (Hlt & d & Hin & Hwin).
    split; [done|]. exists d. specialize (Hd _ Hin). split.
    + by apply elapse_timers.
    + cbn. lia.
  - cbn. by rewrite lookup_empty.
Qed.

Lemma tracked_run (evs : list event) (s : state) :
  tracked s → tracked (run evs s).
Proof.
  revert s. induction evs as [|ev evs IH]; intros s Hs; cbn [run]; [done|].
  by apply IH, tracked_step.
Qed.

(** A stored promise stays where it is as long as nothing evicts its
    property and no call with a falsy key writes over it. *)
Lemma entry_stable (p : string) (h : Js.handle) (evs : list event) (s : state) :
  getRenderContextPromiseCache s !! p = Some h →
  never (evicts p) evs s = true →
  Forall (λ ev, ∀ key, ev = Call key → Js.toPropertyKey key = p →
                       Js.keyTruthy key = true) evs →
  getRenderContextPromiseCache (run evs s) !! p = Some h.
Proof.
  revert s. induction evs as [|ev evs IH]; intros s Hs Hn Hk; cbn [run]; [done|].
  cbn [never] in Hn. apply andb_true_iff in Hn as [Hev Hn].
  apply negb_true_iff in Hev.
  apply Forall_cons in Hk as [Hk Hks].
  apply IH; [|done..].
  destruct ev as [key|ms|]; cbn [step].
  - rewrite handleRender_cache.
    destruct (decide (Js.toPropertyKey key = p)) as [Heq|Hne].
    + rewrite (invokesBuilder_stored key s h); [done| |by rewrite Heq].
      by apply Hk.
    + destruct (invokesBuilder key s); [|done].
      by rewrite lookup_insert_ne.
  - by rewrite elapse_lookup, Hev.
  - done.
Qed.

(** A property that is absent stays absent as long as no call stores
    under it. *)
Lemma absent_stays (p : string) (evs : list event) (s : state) :
  getRenderContextPromiseCache s !! p = None →
  never (storesUnder p) evs s = true →
  getRenderContextPromiseCache (run evs s) !! p = None.
Proof.
  revert s. induction evs as [|ev evs IH]; intros s Hs Hn; cbn [run]; [done|].
  cbn [never] in Hn. apply andb_true_iff in Hn as [Hev Hn].
  apply negb_true_iff in Hev.
  apply IH; [|done].
  destruct ev as [key|ms|]; cbn [step].
  - rewrite handleRender_cache. cbn [storesUnder] in Hev.
    destruct (invokesBuilder key s); [|done].
    rewrite andb_true_r in Hev. apply bool_decide_eq_false in Hev.
    by rewrite lookup_insert_ne.
  - rewrite elapse_lookup, Hs. by destruct (evicts _ _ _).
  - cbn. apply lookup_empty.
Qed.

(** The value a call awaits, when it is a promise, is the one the table
    holds under the key's property after the call. *)
Lemma handleRender_promise_stored key s h :
  (handleRender key s).1 = Js.VPromise h →
  getRenderContextPromiseCache (handleRender key s).2 !! Js.toPropertyKey key
  = Some h.
Proof.
  rewrite handleRender_value. unfold Js.get.
  destruct (_ !! _) as [h'|]; [congruence|].
  by destruct (Js.inherited _).
Qed.

(** ** C1: deduplication of concurrent calls *)








(** ** C3: a failed builder invocation stays cached *)

(** C3, as stated, fails at the empty key: the second call makes a fresh
    builder attempt although nothing was evicted. *)
Lemma failure_retried_for_empty_key :
  ¬ failureShared (Ctx := unit) (λ _, inr tt) "" [].
Proof.
  intros H.
  destruct (H init tt) as (_ & _ & _ & Hb); [vm_compute; reflexivity..|].
  vm_compute in Hb. discriminate.
Qed.

(** C3 (amended): for a non-empty key [k], if the promise awaited by a call
    with [k] rejects, then as long as no timer for [k] fires and the table
    is not reset (and, when [k] is the string ["null"], no call without key
    is made), that promise stays in the table under [k]; every further call
    with [k] awaits it, observes the same failure, and does not invoke the
    builder. *)
Theorem failure_shared_within_window {Ctx Err : Type}
    (outcome : Js.handle → Ctx + Err) (k : string) (evs : list event) :
  k ≠ "" →
  (k = "null" → Forall (λ ev, ¬ withoutKey ev) evs) →
  failureShared outcome k evs.
Proof.
  intros Hk Hnull s e Haw Hn s2.
  assert (∃ h, (handleRender (Some k) s).1 = Js.VPromise h) as [h Hv].
  { destruct ((handleRender (Some k) s).1) as [|h|name];
      [discriminate Haw | by exists h | discriminate Haw]. }
  pose proof (handleRender_promise_stored _ _ _ Hv) as Hst.
  cbn [Js.toPropertyKey] in Hst.
  assert (Hs2 : getRenderContextPromiseCache s2 !! k = Some h).
  { apply entry_stable; [done..|].
    apply Forall_forall. intros ev Hin [k'|] -> Hkey; cbn in Hkey.
    - subst k'. by apply keyTruthy_Some.
    - symmetry in Hkey. specialize (Hnull Hkey).
      rewrite Forall_forall in Hnull. by destruct (Hnull _ Hin). }
  assert (Hb2 : invokesBuilder (Some k) s2 = false).
  { eapply invokesBuilder_stored; [by apply keyTruthy_Some | exact Hs2]. }
  assert (Hv2 : (handleRender (Some k) s2).1 = (handleRender (Some k) s).1).
  { rewrite handleRender_reuse by done. unfold Js.get.
    cbn [Js.toPropertyKey]. by rewrite Hs2, Hv. }
  split_and!.
  - by exists h.
  - done.
  - by rewrite Hv2.
  - by rewrite handleRender_builderCalls, Hb2.
Qed.

Lemma failure_shared_within_window_witness :
  "req-1" ≠ "" ∧
  ("req-1" = "null" →
   Forall (λ ev, ¬ withoutKey ev) [Call (Some "other"); Elapse 4999]) ∧
  failureShared (Ctx := unit) (λ _ : Js.handle, inr tt) "req-1"
    [Call (Some "other"); Elapse 4999].
Proof.
  split; [done|]. split; [discriminate|].
  apply (failure_shared_within_window (λ _, inr tt) "req-1"); [done|discriminate].
Defined.

(** ** C5: when an entry leaves the table *)

(** The callbacks run by the host, one at a time. *)
Lemma runTimer_fired (i : nat) (s : state) (d : N) (p : string) :
  timers s !! i = Some (d, p) → (d ≤ now s)%N →
  runTimer i s
  = {| getRenderContextPromiseCache := delete p (getRenderContextPromiseCache s);
       builderCalls := builderCalls s;
       timers := delete i (timers s);
       now := now s |}.
Proof.
  intros Hi Hd. unfold runTimer. unfold timer in *. rewrite Hi.
  by rewrite decide_True by done.
Qed.

Lemma runTimer_cases (i : nat) (s : state) :
  runTimer i s = s ∨
  ∃ d p, timers s !! i = Some (d, p) ∧ (d ≤ now s)%N ∧
         runTimer i s
         = {| getRenderContextPromiseCache :=
                delete p (getRenderContextPromiseCache s);
              builderCalls := builderCalls s;
              timers := delete i (timers s);
              now := now s |}.
Proof.
  unfold runTimer. destruct (timers s !! i) as [[d p]|] eqn:Hi; [|by left].
  destruct (decide (due (now s) (d, p))) as [Hd|]; [|by left].
  right. by exists d, p.
Qed.

Lemma elem_of_list_delete_other {A : Type} (l : list A) (i : nat) (x y : A) :
  x ∈ l → l !! i = Some y → x ≠ y → x ∈ delete i l.
Proof.
  revert i. induction l as [|a l IH]; intros i Hx Hi Hne.
  { by apply elem_of_nil in Hx. }
  destruct i as [|i]; cbn in Hi |- *.
  - injection Hi as ->. apply elem_of_cons in Hx as [?|?]; done.
  - apply elem_of_cons in Hx as [->|Hx]; [left|right].
    by apply (IH i).
Qed.

Lemma elem_of_list_delete_sub {A : Type} (l : list A) (i : nat) (x : A) :
  x ∈ delete i l → x ∈ l.
Proof.
  revert i. induction l as [|a l IH]; intros i; [done|].
  destruct i as [|i]; cbn.
  - by right.
  - intros [->|Hx]%elem_of_cons; [left | right; by apply (IH i)].
Qed.

Lemma hostStep_builderCalls_mono hev s :
  builderCalls s ≤ builderCalls (hostStep hev s).
Proof.
  destruct hev as [key| |ms|i|]; cbn [hostStep]; [|cbn; lia..| |cbn; lia].
  - rewrite handleRender_builderCalls. destruct (invokesBuilder key s); lia.
  - destruct (runTimer_cases i s) as [->|(d & p & _ & _ & ->)]; cbn; lia.
Qed.

Lemma hostStep_now_mono hev s : (now s ≤ now (hostStep hev s))%N.
Proof.
  destruct hev as [key| |ms|i|]; cbn [hostStep]; [|cbn; lia..| |cbn; lia].
  - rewrite handleRender_now. lia.
  - destruct (runTimer_cases i s) as [->|(d & p & _ & _ & ->)]; cbn; lia.
Qed.

(** A timer stays pending until the clock has reached its deadline. *)
Lemma timer_not_before (D : N) (p : string) (hevs : list hostEvent)
    (s : state) :
  (D, p) ∈ timers s →
  (now (hostRun hevs s) < D)%N →
  (D, p) ∈ timers (hostRun hevs s).
Proof.
  revert s. induction hevs as [|hev hevs IH]; intros s Hin Hlt;
    cbn [hostRun] in *; [done|].
  apply IH; [|done].
  destruct hev as [key| |ms|i|]; cbn [hostStep]; [|done..| |done].
  - rewrite handleRender_timers. apply elem_of_app. by left.
  - destruct (runTimer_cases i s) as [->|(d & q & Hi & Hd & Hr)]; [done|].
    rewrite Hr. cbn [timers].
    apply (elem_of_list_delete_other _ i _ (d, q)); [done..|].
    intros [= <- <-].
    assert (Hm : ∀ l s', (now s' ≤ now (hostRun l s'))%N).
    { clear. induction l as [|e l IHl]; intros s'; cbn [hostRun]; [lia|].
      pose proof (hostStep_now_mono e s'). specialize (IHl (hostStep e s')).
      lia. }
    specialize (Hm hevs (runTimer i s)). rewrite Hr in Hm at 1.
    cbn [now] in Hm. cbn [hostStep] in Hlt. lia.
Qed.

(** A promise that is out of the table does not come back. *)
Lemma promise_never_returns (p : string) (h : Js.handle)
    (hevs : list hostEvent) (s : state) :
  h < builderCalls s →
  getRenderContextPromiseCache s !! p ≠ Some h →
  getRenderContextPromiseCache (hostRun hevs s) !! p ≠ Some h.
Proof.
  revert s. induction hevs as [|hev hevs IH]; intros s Hlt Hne;
    cbn [hostRun]; [done|].
  apply IH.
  { pose proof (hostStep_builderCalls_mono hev s). lia. }
  destruct hev as [key| |ms|i|]; cbn [hostStep]; [|done..| |].
  - rewrite handleRender_cache. destruct (invokesBuilder key s); [|done].
    destruct (decide (Js.toPropertyKey key = p)) as [<-|Hk].
    + rewrite lookup_insert_eq. intros [= Heq]. lia.
    + by rewrite lookup_insert_ne.
  - destruct (runTimer_cases i s) as [->|(d & q & _ & _ & ->)]; [done|].
    cbn [getRenderContextPromiseCache].
    destruct (decide (q = p)) as [->|Hq].
    + by rewrite lookup_delete_eq.
    + by rewrite lookup_delete_ne.
  - cbn. by rewrite lookup_empty.
Qed.

(** A property without entry stays so while no call stores under it. *)
Lemma absent_while_not_stored (p : string) (hevs : list hostEvent)
    (s : state) :
  getRenderContextPromiseCache s !! p = None →
  neverStores p hevs s = true →
  getRenderContextPromiseCache (hostRun hevs s) !! p = None.
Proof.
  revert s. induction hevs as [|hev hevs IH]; intros s Hs Hn;
    cbn [hostRun]; [done|].
  cbn [neverStores] in Hn. apply andb_true_iff in Hn as [Hev Hn].
  apply negb_true_iff in Hev. apply IH; [|done].
  destruct hev as [key| |ms|i|]; cbn [hostStep]; [|done..| |].
  - rewrite handleRender_cache. destruct (invokesBuilder key s); [|done].
    rewrite andb_true_r in Hev. apply bool_decide_eq_false in Hev.
    by rewrite lookup_insert_ne.
  - destruct (runTimer_cases i s) as [->|(d & q & _ & _ & ->)]; [done|].
    cbn [getRenderContextPromiseCache].
    destruct (decide (q = p)) as [->|Hq].
    + by rewrite lookup_delete_eq.
    + by rewrite lookup_delete_ne.
  - cbn. apply lookup_empty.
Qed.

(** With late timers too, every entry has its timer. *)
Lemma hostStep_invariants (hev : hostEvent) (s : state) :
  everyEntryHasTimer s ∧ timersDueWithinDelay s →
  everyEntryHasTimer (hostStep hev s) ∧ timersDueWithinDelay (hostStep hev s).
Proof.
  intros [He Ht]. destruct hev as [key| |ms|i|]; cbn [hostStep].
  - split.
    + intros p h.
      rewrite handleRender_cache, handleRender_builderCalls,
        handleRender_timers, handleRender_now.
      assert (Hold : getRenderContextPromiseCache s !! p = Some h →
                h < S (builderCalls s) ∧ h < builderCalls s ∧
                ∃ d, (d, p) ∈ timers s ++
                       [((now s + evictionDelay)%N, Js.toPropertyKey key)] ∧
                     (d ≤ now s + evictionDelay)%N).
      { intros (Hlt & d & Hin & Hd)%He. split; [lia|]. split; [done|].
        exists d. split; [|done]. apply elem_of_app. by left. }
      destruct (invokesBuilder key s).
      * destruct (decide (Js.toPropertyKey key = p)) as [<-|Hne].
        -- rewrite lookup_insert_eq. intros [= <-]. split; [lia|].
           exists (now s + evictionDelay)%N. split; [|lia].
           apply elem_of_app. right. by apply list_elem_of_singleton.
        -- rewrite lookup_insert_ne by done. intros H; apply Hold in H. tauto.
      * intros H; apply Hold in H. tauto.
    + intros tm. rewrite handleRender_timers, handleRender_now.
      intros [Hin|Hin]%elem_of_app; [by apply Ht|].
      apply list_elem_of_singleton in Hin as ->. cbn. lia.
  - split; [|done]. intros p h Hh. destruct (He p h Hh) as [Hlt Hd].
    split; [cbn; lia | done].
  - split.
    + intros p h Hh. destruct (He p h Hh) as (Hlt & d & Hin & Hd).
      split; [done|]. exists d. split; [done|]. cbn. lia.
    + intros tm Hin. specialize (Ht tm Hin). cbn. lia.
  - destruct (runTimer_cases i s) as [->|(d & q & Hi & Hd & ->)]; [done|].
    split.
    + intros p h. cbn [getRenderContextPromiseCache builderCalls timers now].
      destruct (decide (q = p)) as [->|Hq]; [by rewrite lookup_delete_eq|].
      rewrite lookup_delete_ne by done.
      intros (Hlt & d' & Hin & Hd')%He. split; [done|].
      exists d'. split; [|done].
      apply (elem_of_list_delete_other _ i _ (d, q)); [done..|congruence].
    + intros tm Hin. cbn [timers now] in *.
      apply elem_of_list_delete_sub in Hin. by apply Ht.
  - split; [|done]. intros p h. cbn. by rewrite lookup_empty.
Qed.

Lemma hostRun_invariants (hevs : list hostEvent) :
  everyEntryHasTimer (hostRun hevs init)
  ∧ timersDueWithinDelay (hostRun hevs init).
Proof.
  assert (Hgen : ∀ s, everyEntryHasTimer s ∧ timersDueWithinDelay s →
            everyEntryHasTimer (hostRun hevs s)
            ∧ timersDueWithinDelay (hostRun hevs s)).
  { induction hevs as [|hev hevs IH]; intros s Hs; cbn [hostRun]; [done|].
    by apply IH, hostStep_invariants. }
  apply Hgen. split.
  - intros p h. cbn. by rewrite lookup_empty.
  - intros tm Hin. cbn in Hin. by apply elem_of_nil in Hin.
Qed.

(** C5, as stated, fails: [setTimeout] only promises that the callback does
    not run before its delay. When the delay has passed on the clock and
    the host has not yet run the callback, the promise is still in the
    table, and a call with the key is a hit. *)
Lemma entry_outlives_delay :
  ¬ removedAfterDelay (Some "req-1") init [HostAdvance 5000].
Proof.
  intros H. apply H; [reflexivity | vm_compute; discriminate |].
  vm_compute. reflexivity.
Qed.

(** C5 (amended): a call that invokes the builder stores the new promise
    under its key's property and sets a timer 5000 ms ahead, which stays
    pending as long as the clock has not reached that deadline. The promise
    leaves the table when the host runs a timer for the property (that of
    the call itself at the latest), awaited or not: right after such a
    callback the property has no entry, the promise never comes back, and as
    long as no call stores under the property again, it stays without entry
    and a call with the key is a miss that invokes the builder anew. In
    every state reached from the initial one, every promise in the table
    has a pending timer for its property that is due at most 5000 ms from
    now: no entry outlives the timers set for it. *)
Theorem entry_removed_when_timer_fires (key : option string) (s : state)
    (hevs1 hevs2 : list hostEvent) (i : nat) (d : N) :
  invokesBuilder key s = true →
  timers (hostRun hevs1 (handleRender key s).2) !! i
  = Some (d, Js.toPropertyKey key) →
  (d ≤ now (hostRun hevs1 (handleRender key s).2))%N →
  neverStores (Js.toPropertyKey key) hevs2
    (runTimer i (hostRun hevs1 (handleRender key s).2)) = true →
  let p := Js.toPropertyKey key in
  let s1 := (handleRender key s).2 in
  let fired := runTimer i (hostRun hevs1 s1) in
  let s2 := hostRun hevs2 fired in
  (getRenderContextPromiseCache s1 !! p = Some (builderCalls s) ∧
   ((now s + 5000)%N, p) ∈ timers s1) ∧
  (∀ hevs, (now (hostRun hevs s1) < now s + 5000)%N →
           ((now s + 5000)%N, p) ∈ timers (hostRun hevs s1)) ∧
  getRenderContextPromiseCache fired !! p = None ∧
  (∀ hevs, getRenderContextPromiseCache (hostRun hevs fired) !! p
           ≠ Some (builderCalls s)) ∧
  getRenderContextPromiseCache s2 !! p = None ∧
  (invokesBuilder key s2 = true ∧
   (handleRender key s2).1 = Js.VPromise (builderCalls s2) ∧
   builderCalls (handleRender key s2).2 = S (builderCalls s2)) ∧
  (∀ (hevs : list hostEvent) (q : string) (h : Js.handle),
     getRenderContextPromiseCache (hostRun hevs init) !! q = Some h →
     ∃ d', (d', q) ∈ timers (hostRun hevs init) ∧
           (d' ≤ now (hostRun hevs init) + 5000)%N).
Proof.
  intros Hb Hi Hd Hquiet p s1 fired s2.
  assert (Hst : getRenderContextPromiseCache s1 !! p = Some (builderCalls s)).
  { unfold s1. rewrite handleRender_cache, Hb. apply lookup_insert_eq. }
  assert (Htm : ((now s + 5000)%N, p) ∈ timers s1).
  { unfold s1. rewrite handleRender_timers. apply elem_of_app. right.
    by apply list_elem_of_singleton. }
  assert (Hfired : getRenderContextPromiseCache fired !! p = None).
  { unfold fired. rewrite (runTimer_fired i _ d p) by done.
    cbn [getRenderContextPromiseCache]. apply lookup_delete_eq. }
  assert (Hcalls : builderCalls s < builderCalls fired).
  { unfold fired. rewrite (runTimer_fired i _ d p) by done.
    cbn [builderCalls].
    assert (Hm : ∀ l s', builderCalls s' ≤ builderCalls (hostRun l s')).
    { clear. induction l as [|e l IHl]; intros s'; cbn [hostRun]; [lia|].
      pose proof (hostStep_builderCalls_mono e s').
      specialize (IHl (hostStep e s')). lia. }
    specialize (Hm hevs1 s1). unfold s1 in Hm at 1.
    rewrite handleRender_builderCalls, Hb in Hm. lia. }
  assert (Hs2 : getRenderContextPromiseCache s2 !! p = None).
  { by apply absent_while_not_stored. }
  assert (Hb2 : invokesBuilder key s2 = true).
  { destruct (Js.keyTruthy key) eqn:Hk; [|by apply invokesBuilder_falsy].
    apply invokesBuilder_absent; [done|].
    unfold invokesBuilder, Js.get in Hb. rewrite Hk in Hb.
    fold p in Hb |- *.
    destruct (getRenderContextPromiseCache s !! p); [done|].
    by destruct (Js.inherited p). }
  split_and!; [done | done | | done | | done | done | | |].
  - intros hevs Hlt. by apply timer_not_before.
  - intros hevs. apply promise_never_returns; [done|]. by rewrite Hfired.
  - by apply handleRender_fresh.
  - by rewrite handleRender_builderCalls, Hb2.
  - intros hevs q h Hq.
    destruct (hostRun_invariants hevs) as [He _].
    destruct (He q h Hq) as (_ & d' & Hin & Hd').
    exists d'. by split.
Qed.

Lemma entry_removed_when_timer_fires_witness :
  invokesBuilder (Some "req-1") init = true ∧
  timers (hostRun [HostAdvance 7000] (handleRender (Some "req-1") init).2) !! 0
  = Some (5000%N, "req-1") ∧
  (5000 ≤ now (hostRun [HostAdvance 7000]
                 (handleRender (Some "req-1") init).2))%N ∧
  neverStores "req-1" [HostCall (Some "req-2"); HostAdvance 100]
    (runTimer 0 (hostRun [HostAdvance 7000]
                   (handleRender (Some "req-1") init).2)) = true ∧
  getRenderContextPromiseCache
    (hostRun [HostCall (Some "req-2"); HostAdvance 100]
       (runTimer 0 (hostRun [HostAdvance 7000]
                      (handleRender (Some "req-1") init).2))) !! "req-1"
  = None.
Proof.
  assert (Hb : invokesBuilder (Some "req-1") init = true) by reflexivity.
  assert (Hi : timers (hostRun [HostAdvance 7000]
                         (handleRender (Some "req-1") init).2) !! 0
               = Some (5000%N, "req-1")) by reflexivity.
  assert (Hd : (5000 ≤ now (hostRun [HostAdvance 7000]
                              (handleRender (Some "req-1") init).2))%N)
    by (vm_compute; discriminate).
  assert (Hq : neverStores "req-1" [HostCall (Some "req-2"); HostAdvance 100]
                 (runTimer 0 (hostRun [HostAdvance 7000]
                                (handleRender (Some "req-1") init).2)) = true)
    by reflexivity.
  split_and!; [done..|].
  apply (entry_removed_when_timer_fires (Some "req-1") init
           [HostAdvance 7000] [HostCall (Some "req-2"); HostAdvance 100]
           0 5000 Hb Hi Hd Hq).
Defined.

(** ** C6: a timer removes whatever its property holds *)

(** C6: the callback of a timer deletes its property from the table without
    looking at what is stored there. So when a call stores a new promise
    under a property for which an older timer is still pending, that timer,
    as soon as its deadline [d] is reached, removes the new promise, however
    little time has passed since it was stored. *)
Theorem stale_timer_evicts_fresh_entry (key : option string) (s : state)
    (d ms : N) :
  (d, Js.toPropertyKey key) ∈ timers s →
  invokesBuilder key s = true →
  (d ≤ now s + ms)%N →
  let p := Js.toPropertyKey key in
  (∀ s', getRenderContextPromiseCache (fire p s')
         = delete p (getRenderContextPromiseCache s')) ∧
  (handleRender key s).1 = Js.VPromise (builderCalls s) ∧
  getRenderContextPromiseCache (handleRender key s).2 !! p
  = Some (builderCalls s) ∧
  getRenderContextPromiseCache (fire p (handleRender key s).2) !! p = None ∧
  getRenderContextPromiseCache (elapse ms (handleRender key s).2) !! p = None.
Proof.
  intros Hin Hb Hd p. split_and!.
  - done.
  - by apply handleRender_fresh.
  - rewrite handleRender_cache, Hb. apply lookup_insert_eq.
  - cbn [fire getRenderContextPromiseCache]. apply lookup_delete_eq.
  - apply (elapse_lookup_due ms d).
    + rewrite handleRender_timers. apply elem_of_app. by left.
    + by rewrite handleRender_now.
Qed.

Lemma stale_timer_evicts_fresh_entry_witness :
  (5000%N, "req-1")
    ∈ timers (run [Call (Some "req-1"); Elapse 1000; Initialize; Elapse 1000]
                  init) ∧
  invokesBuilder (Some "req-1")
    (run [Call (Some "req-1"); Elapse 1000; Initialize; Elapse 1000] init)
  = true ∧
  (5000 ≤ now (run [Call (Some "req-1"); Elapse 1000; Initialize; Elapse 1000]
                   init) + 3000)%N ∧
  getRenderContextPromiseCache
    (handleRender (Some "req-1")
       (run [Call (Some "req-1"); Elapse 1000; Initialize; Elapse 1000]
            init)).2 !! "req-1" = Some 1 ∧
  getRenderContextPromiseCache
    (elapse 3000
       (handleRender (Some "req-1")
          (run [Call (Some "req-1"); Elapse 1000; Initialize; Elapse 1000]
               init)).2) !! "req-1" = None.
Proof.
  set (s := run [Call (Some "req-1"); Elapse 1000; Initialize; Elapse 1000]
                init).
  assert (Hin : (5000%N, "req-1") ∈ timers s).
  { vm_compute. repeat constructor. }
  assert (Hb : invokesBuilder (Some "req-1") s = true) by reflexivity.
  assert (Hd : (5000 ≤ now s + 3000)%N) by (vm_compute; discriminate).
  pose proof (stale_timer_evicts_fresh_entry (Some "req-1") s 5000 3000
                Hin Hb Hd) as (_ & _ & Hst & _ & Hgone).
  split_and!; [done | done | done | exact Hst | exact Hgone].
Defined.

(** ** C7: the key [null] and the string ["null"] *)

(** C7: a call without key stores its promise under the property ["null"].
    Until a timer for ["null"] fires or the table is reset, and as long as
    no further call without key is made, a call with the string key
    ["null"] awaits that very promise and does not invoke the builder. A
    call without key always replaces what is stored under ["null"] by its
    new promise, which differs from any promise stored before. *)
Theorem null_key_shares_string_null (s : state) (evs : list event) :
  never (evicts "null") evs (handleRender None s).2 = true →
  Forall (λ ev, ¬ withoutKey ev) evs →
  let s2 := run evs (handleRender None s).2 in
  getRenderContextPromiseCache (handleRender None s).2 !! "null"
  = Some (builderCalls s) ∧
  (handleRender (Some "null") s2).1 = (handleRender None s).1 ∧
  invokesBuilder (Some "null") s2 = false ∧
  builderCalls (handleRender (Some "null") s2).2 = builderCalls s2 ∧
  (∀ s', getRenderContextPromiseCache (handleRender None s').2 !! "null"
         = Some (builderCalls s')) ∧
  (∀ evs0 h0,
     getRenderContextPromiseCache (run evs0 init) !! "null" = Some h0 →
     h0 ≠ builderCalls (run evs0 init)).
Proof.
  intros Hn Hk s2.
  assert (Hst : ∀ s', getRenderContextPromiseCache (handleRender None s').2
                      !! "null" = Some (builderCalls s')).
  { intros s'. rewrite handleRender_cache.
    rewrite invokesBuilder_falsy by done. apply lookup_insert_eq. }
  assert (Hs2 : getRenderContextPromiseCache s2 !! "null"
                = Some (builderCalls s)).
  { apply entry_stable; [apply Hst | done |].
    eapply Forall_impl; [exact Hk|].
    intros ev Hev [k|] -> Hp; [|by destruct Hev].
    cbn in Hp. by subst k. }
  assert (Hb2 : invokesBuilder (Some "null") s2 = false).
  { by eapply invokesBuilder_stored. }
  split_and!; [apply Hst | | done | | apply Hst |].
  - rewrite handleRender_reuse by done. unfold Js.get.
    cbn [Js.toPropertyKey]. rewrite Hs2.
    by rewrite handleRender_fresh.
  - by rewrite handleRender_builderCalls, Hb2.
  - intros evs0 h0 Hh0.
    destruct (tracked_run evs0 init tracked_init _ _ Hh0) as [Hlt _]. lia.
Qed.

Lemma null_key_shares_string_null_witness :
  never (evicts "null") [Call (Some "req-1"); Elapse 4000]
        (handleRender None init).2 = true ∧
  Forall (λ ev, ¬ withoutKey ev) [Call (Some "req-1"); Elapse 4000] ∧
  (handleRender (Some "null")
     (run [Call (Some "req-1"); Elapse 4000] (handleRender None init).2)).1
  = (handleRender None init).1.
Proof.
  assert (Hn : never (evicts "null") [Call (Some "req-1"); Elapse 4000]
                     (handleRender None init).2 = true) by reflexivity.
  assert (Hk : Forall (λ ev, ¬ withoutKey ev)
                      [Call (Some "req-1"); Elapse 4000]).
  { repeat constructor; discriminate. }
  split; [exact Hn|]. split; [exact Hk|].
  apply (null_key_shares_string_null init _ Hn Hk).
Defined.

(** ** C8: resetting the table *)

(** C8, as stated, fails: after a reset and a new call with the same key,
    the timer of the old call is still pending and finds the new promise
    under its property; its callback removes it. *)
Lemma stale_timer_finds_new_entry :
  ¬ staleTimerHarmless (handleRender (Some "req-1") init).2
      [Elapse 1000; Call (Some "req-1")].
Proof.
  intros H.
  destruct (H 5000%N "req-1") as [Hc _].
  - vm_compute. repeat constructor.
  - vm_compute. repeat constructor.
  - vm_compute in Hc. discriminate.
Qed.

(** C8 (amended): [initializeNunjucksRenderPromiseCache] leaves the table
    empty, and timers that come due on the emptied table leave it empty.
    More generally, a timer set before the reset that fires after it finds
    its property absent and leaves the table unchanged, provided no call
    has stored a promise under that property since the reset. *)
Theorem reset_then_stale_timer (s : state) (evs : list event) (p : string) :
  never (storesUnder p) evs (initializeNunjucksRenderPromiseCache s) = true →
  let s1 := run evs (initializeNunjucksRenderPromiseCache s) in
  getRenderContextPromiseCache (initializeNunjucksRenderPromiseCache s) = ∅ ∧
  (∀ ms, getRenderContextPromiseCache
           (elapse ms (initializeNunjucksRenderPromiseCache s)) = ∅) ∧
  getRenderContextPromiseCache s1 !! p = None ∧
  getRenderContextPromiseCache (fire p s1) = getRenderContextPromiseCache s1.
Proof.
  intros Hn s1.
  assert (Hp : getRenderContextPromiseCache s1 !! p = None).
  { apply absent_stays; [apply lookup_empty | done]. }
  split_and!; [done | | done |].
  - intros ms. by apply elapse_empty.
  - cbn [fire getRenderContextPromiseCache]. by apply delete_id.
Qed.

Lemma reset_then_stale_timer_witness :
  never (storesUnder "req-1") [Elapse 1000; Call (Some "other")]
        (initializeNunjucksRenderPromiseCache
           (handleRender (Some "req-1") init).2) = true ∧
  getRenderContextPromiseCache
    (run [Elapse 1000; Call (Some "other")]
         (initializeNunjucksRenderPromiseCache
            (handleRender (Some "req-1") init).2)) !! "req-1" = None.
Proof.
  assert (Hn : never (storesUnder "req-1") [Elapse 1000; Call (Some "other")]
                 (initializeNunjucksRenderPromiseCache
                    (handleRender (Some "req-1") init).2) = true)
    by reflexivity.
  split; [exact Hn|].
  apply (reset_then_stale_timer _ _ "req-1" Hn).
Defined.

(** ** C10: the empty string as key *)

(** C10: the empty string fails the truthiness test of line 51 just as
    [null] does, so in every state reached from the initial one a call with
    key [""] invokes the builder and awaits the promise just made, exactly
    as a call without key would, and that promise is none of those already
    in the table. (The new promise is stored under the property [""].) *)
Theorem empty_key_bypasses (evs : list event) :
  let s := run evs init in
  Js.keyTruthy (Some "") = Js.keyTruthy None ∧
  invokesBuilder (Some "") s = true ∧
  (handleRender (Some "") s).1 = Js.VPromise (builderCalls s) ∧
  (handleRender (Some "") s).1 = (handleRender None s).1 ∧
  builderCalls (handleRender (Some "") s).2 = S (builderCalls s) ∧
  getRenderContextPromiseCache (handleRender (Some "") s).2 !! ""
  = Some (builderCalls s) ∧
  (∀ p h, getRenderContextPromiseCache s !! p = Some h →
          (handleRender (Some "") s).1 ≠ Js.VPromise h).
Proof.
  intros s.
  assert (Hb : invokesBuilder (Some "") s = true) by done.
  split_and!; [done | done | by apply handleRender_fresh | | | |].
  - by rewrite !handleRender_fresh.
  - by rewrite handleRender_builderCalls, Hb.
  - rewrite handleRender_cache, Hb. apply lookup_insert_eq.
  - intros p h Hh. rewrite handleRender_fresh by done.
    destruct (tracked_run evs init tracked_init _ _ Hh) as [Hlt _].
    intros [= Heq]. fold s in Hlt. lia.
Qed.

(** * Further properties of the hook *)

(** ** Invariants of a run with both entry points *)

Lemma falsy_key_not_inherited (key : option string) :
  Js.keyTruthy key = false → Js.inherited (Js.toPropertyKey key) = false.
Proof. destruct key as [[|c k]|]; [done | discriminate | done]. Qed.

(** A call only ever stores under a property that is not inherited. *)
Lemma invokesBuilder_not_inherited (key : option string) (s : state) :
  inheritedNamesFree s →
  invokesBuilder key s = true →
  Js.inherited (Js.toPropertyKey key) = false.
Proof.
  intros Hs Hb.
  destruct (Js.keyTruthy key) eqn:Hk; [|by apply falsy_key_not_inherited].
  unfold invokesBuilder, Js.get in Hb. rewrite Hk in Hb.
  destruct (Js.inherited (Js.toPropertyKey key)) eqn:Hi; [|done].
  by rewrite (Hs _ Hi) in Hb.
Qed.

Lemma inheritedNamesFree_step (ev : event) (s : state) :
  inheritedNamesFree s → inheritedNamesFree (step ev s).
Proof.
  intros Hs p Hp. destruct ev as [key|ms|]; cbn [step].
  - rewrite handleRender_cache.
    destruct (invokesBuilder key s) eqn:Hb; [|by apply Hs].
    rewrite lookup_insert_ne; [by apply Hs|].
    intros <-. by rewrite (invokesBuilder_not_inherited key s) in Hp.
  - rewrite elapse_lookup, (Hs _ Hp). by destruct (evicts _ _ _).
  - cbn. apply lookup_empty.
Qed.

Lemma timersWithinDelay_step (ev : event) (s : state) :
  timersWithinDelay s → timersWithinDelay (step ev s).
Proof.
  intros Hs tm. destruct ev as [key|ms|]; cbn [step].
  - rewrite handleRender_timers, handleRender_now.
    intros [Hin|Hin]%elem_of_app; [by apply Hs|].
    apply list_elem_of_singleton in Hin as ->. cbn. unfold evictionDelay. lia.
  - intros [Hin Hlate]%elapse_timers. specialize (Hs _ Hin). cbn. lia.
  - cbn. apply Hs.
Qed.

(** The three invariants hold in every state the hook can reach. *)
Lemma hookRun_invariants (hevs : list hookEvent) (s : state) :
  tracked s ∧ timersWithinDelay s ∧ inheritedNamesFree s →
  tracked (hookRun hevs s) ∧ timersWithinDelay (hookRun hevs s)
  ∧ inheritedNamesFree (hookRun hevs s).
Proof.
  revert s. induction hevs as [|hev hevs IH]; intros s Hs; cbn [hookRun]; [done|].
  apply IH. destruct Hs as (Ht & Hw & Hi). destruct hev as [ev|]; cbn [hookStep].
  - split_and!; [by apply tracked_step | by apply timersWithinDelay_step
                 | by apply inheritedNamesFree_step].
  - split_and!; [|done..].
    intros p h Hh. destruct (Ht p h Hh) as [Hlt Hd]. split; [cbn; lia | done].
Qed.

Lemma hookRun_init_invariants (hevs : list hookEvent) :
  tracked (hookRun hevs init) ∧ timersWithinDelay (hookRun hevs init)
  ∧ inheritedNamesFree (hookRun hevs init).
Proof.
  apply hookRun_invariants. split_and!.
  - apply tracked_init.
  - intros tm Hin. cbn in Hin. by apply elem_of_nil in Hin.
  - intros p _. cbn. apply lookup_empty.
Qed.

(** ** X1: [handleGetRenderContext] goes past the table *)

(** X1: in every state the hook can reach, [handleGetRenderContext] invokes
    the builder, and its promise is none of those in the table; it leaves
    the table and the timers as they are, so that a call of [handleRender]
    is a hit after it exactly when it was one before, and then awaits the
    same promise. *)
Theorem getRenderContext_goes_past_table (hevs : list hookEvent)
    (key : option string) :
  let s := hookRun hevs init in
  let s' := (handleGetRenderContext s).2 in
  getRenderContextPromiseCache s' = getRenderContextPromiseCache s ∧
  timers s' = timers s ∧
  builderCalls s' = S (builderCalls s) ∧
  (∀ p h, getRenderContextPromiseCache s !! p = Some h →
          h ≠ (handleGetRenderContext s).1) ∧
  invokesBuilder key s' = invokesBuilder key s ∧
  (invokesBuilder key s = false →
   (handleRender key s').1 = (handleRender key s).1).
Proof.
  intros s s'. split_and!; [done..| | done |].
  - intros p h Hh.
    destruct (hookRun_init_invariants hevs) as (Ht & _ & _).
    destruct (Ht p h Hh) as [Hlt _].
    change ((handleGetRenderContext s).1) with (builderCalls s).
    subst s. lia.
  - intros Hb. by rewrite !handleRender_reuse.
Qed.

(** ** X2: an idle table is emptied by its timers *)

Lemma hostRun_app (hevs1 hevs2 : list hostEvent) (s : state) :
  hostRun (hevs1 ++ hevs2) s = hostRun hevs2 (hostRun hevs1 s).
Proof.
  revert s. induction hevs1 as [|hev hevs1 IH]; intros s; [done|].
  cbn [app hostRun]. apply IH.
Qed.

(** When every pending timer is due, running the first pending callback as
    many times as there are timers leaves none pending. *)
Lemma run_all_due (s : state) :
  (∀ tm, tm ∈ timers s → due (now s) tm) →
  timers (hostRun (replicate (length (timers s)) (HostTimer 0)) s) = [].
Proof.
  remember (length (timers s)) as n eqn:Hn. revert s Hn.
  induction n as [|n IH]; intros s Hn Hdue.
  { cbn. by destruct (timers s). }
  destruct (timers s) as [|[d p] l] eqn:Hl; [done|].
  cbn [replicate hostRun hostStep].
  assert (Hr : runTimer 0 s
               = {| getRenderContextPromiseCache :=
                      delete p (getRenderContextPromiseCache s);
                    builderCalls := builderCalls s;
                    timers := delete 0 (timers s);
                    now := now s |}).
  { apply (runTimer_fired 0 s d p); [by rewrite Hl|].
    apply (Hdue (d, p)). left. }
  rewrite Hr, Hl. cbn [delete list_delete].
  apply IH.
  - cbn in Hn |- *. lia.
  - intros tm Hin. cbn [timers now] in *. apply Hdue. by right.
Qed.

(** X2: in every state the hook can reach, whether its timers ran late or
    not, every promise in the table has a pending timer for its property;
    so a state without pending timers has an empty table. Once 5000 ms
    have passed without a call, every pending timer is due, and when the
    host has run them all the table is empty and no timer is pending. *)
Theorem idle_table_is_emptied (hevs : list hostEvent) (ms : N) :
  (5000 ≤ ms)%N →
  let idle := advance ms (hostRun hevs init) in
  let emptied :=
    hostRun (replicate (length (timers idle)) (HostTimer 0)) idle in
  (∀ tm, tm ∈ timers idle → due (now idle) tm) ∧
  timers emptied = [] ∧
  getRenderContextPromiseCache emptied = ∅ ∧
  (∀ hevs', timers (hostRun hevs' init) = [] →
            getRenderContextPromiseCache (hostRun hevs' init) = ∅).
Proof.
  intros Hms idle emptied.
  assert (Hgen : ∀ hevs', timers (hostRun hevs' init) = [] →
            getRenderContextPromiseCache (hostRun hevs' init) = ∅).
  { intros hevs' Hnil. apply map_eq. intros p. rewrite lookup_empty.
    destruct (getRenderContextPromiseCache (hostRun hevs' init) !! p)
      as [h|] eqn:Hp; [|done].
    destruct (hostRun_invariants hevs') as [He _].
    destruct (He p h Hp) as (_ & d & Hin & _).
    rewrite Hnil in Hin. by apply elem_of_nil in Hin. }
  assert (Hdue : ∀ tm, tm ∈ timers idle → due (now idle) tm).
  { intros tm Hin. destruct (hostRun_invariants hevs) as [_ Ht].
    specialize (Ht tm Hin). unfold due, idle, evictionDelay in *.
    cbn [now advance]. lia. }
  assert (Hnone : timers emptied = []) by (by apply run_all_due).
  split_and!; [done | done | | done].
  assert (Hreach : emptied
            = hostRun (hevs ++ [HostAdvance ms]
                       ++ replicate (length (timers idle)) (HostTimer 0))
                      init).
  { by rewrite !hostRun_app. }
  rewrite Hreach in Hnone |- *. by apply Hgen.
Qed.

Lemma idle_table_is_emptied_witness :
  (5000 ≤ 5000)%N ∧
  getRenderContextPromiseCache
    (hostRun
       (replicate
          (length
             (timers
                (advance 5000
                   (hostRun [HostCall (Some "req-1"); HostGetRenderContext;
                             HostAdvance 9000; HostCall None] init))))
          (HostTimer 0))
       (advance 5000
          (hostRun [HostCall (Some "req-1"); HostGetRenderContext;
                    HostAdvance 9000; HostCall None] init))) = ∅.
Proof.
  split; [done|].
  apply (idle_table_is_emptied
           [HostCall (Some "req-1"); HostGetRenderContext;
            HostAdvance 9000; HostCall None] 5000).
  done.
Defined.

(** ** X3: keys that name an inherited member *)

(** X3: in every state the hook can reach, the table has no entry of its
    own under a name inherited from [Object.prototype]; a call whose key is
    such a name never invokes the builder and awaits the inherited member,
    which is not a promise, whatever the builder would have produced. *)
Theorem inherited_name_never_builds (hevs : list hookEvent) (k : string) :
  Js.inherited k = true →
  let s := hookRun hevs init in
  getRenderContextPromiseCache s !! k = None ∧
  invokesBuilder (Some k) s = false ∧
  (handleRender (Some k) s).1 = Js.VInherited k ∧
  builderCalls (handleRender (Some k) s).2 = builderCalls s ∧
  getRenderContextPromiseCache (handleRender (Some k) s).2
  = getRenderContextPromiseCache s ∧
  (∀ (Ctx Err : Type) (outcome : Js.handle → Ctx + Err),
     await outcome (handleRender (Some k) s).1
     = NotAPromise (Js.VInherited k)).
Proof.
  intros Hk s. destruct (hookRun_init_invariants hevs) as (_ & _ & Hi).
  fold s in Hi. pose proof (Hi k Hk) as Hnone.
  assert (Hb : invokesBuilder (Some k) s = false).
  { unfold invokesBuilder, Js.get. cbn [Js.toPropertyKey].
    rewrite Hnone, Hk. destruct k; [discriminate Hk | done]. }
  assert (Hv : (handleRender (Some k) s).1 = Js.VInherited k).
  { rewrite handleRender_reuse by done. unfold Js.get.
    cbn [Js.toPropertyKey]. by rewrite Hnone, Hk. }
  split_and!; [done | done | done | | |].
  - by rewrite handleRender_builderCalls, Hb.
  - by rewrite handleRender_cache, Hb.
  - intros Ctx Err outcome. by rewrite Hv.
Qed.

Lemma inherited_name_never_builds_witness :
  Js.inherited "constructor" = true ∧
  (handleRender (Some "constructor")
     (hookRun [Cache (Call (Some "req-1")); GetRenderContext] init)).1
  = Js.VInherited "constructor".
Proof.
  split; [reflexivity|].
  apply (inherited_name_never_builds
           [Cache (Call (Some "req-1")); GetRenderContext] "constructor").
  reflexivity.
Defined.

(** ** X4: sharing across interleaved calls *)



(** ** X5: what a step does to the entries of the table *)

(** X5: a call changes the table at most under the property its key
    stands for: every other property holds after the call exactly what it
    held before, and a call that does not invoke the builder leaves the
    whole table as it is. Conversely, whatever a step leaves in the table
    under a property was there under the same property before the step, or
    is the promise made by this very step, a call whose key stands for that
    property: promises never move between properties, and time passing or
    a reset only removes entries. *)
Theorem entries_come_from_own_call (ev : event) (s : state) (p : string) :
  (∀ key, ev = Call key → p ≠ Js.toPropertyKey key →
          getRenderContextPromiseCache (step ev s) !! p
          = getRenderContextPromiseCache s !! p) ∧
  (∀ key, ev = Call key → invokesBuilder key s = false →
          getRenderContextPromiseCache (step ev s)
          = getRenderContextPromiseCache s) ∧
  (∀ h, getRenderContextPromiseCache (step ev s) !! p = Some h →
        getRenderContextPromiseCache s !! p = Some h ∨
        ∃ key, ev = Call key ∧ Js.toPropertyKey key = p ∧ h = builderCalls s
               ∧ invokesBuilder key s = true).
Proof.
  split_and!.
  - intros key -> Hne. cbn [step]. rewrite handleRender_cache.
    destruct (invokesBuilder key s); [|done].
    by rewrite lookup_insert_ne.
  - intros key -> Hb. cbn [step]. by rewrite handleRender_cache, Hb.
  - intros h. destruct ev as [key|ms|]; cbn [step].
    + rewrite handleRender_cache.
      destruct (invokesBuilder key s) eqn:Hb; [|by left].
      destruct (decide (Js.toPropertyKey key = p)) as [<-|Hne].
      * rewrite lookup_insert_eq. intros [= <-]. right. by exists key.
      * rewrite lookup_insert_ne by done. by left.
    + intros [Hc _]%elapse_lookup_Some. by left.
    + cbn. by rewrite lookup_empty.
Qed.

(** * Properties of the request pane *)

(** ** The string operations *)

Lemma prefix_cons_char (c d : ascii) (s : string) :
  String.prefix (String c EmptyString) (String d s) = Ascii.eqb c d.
Proof.
  cbn. destruct (ascii_dec c d) as [->|Hne].
  - rewrite Ascii.eqb_refl. by destruct s.
  - symmetry. by apply Ascii.eqb_neq.
Qed.

Lemma beforeSemicolon_prefix (s : string) :
  String.prefix (JsString.beforeSemicolon s) s = true.
Proof.
  induction s as [|c s IH]; cbn [JsString.beforeSemicolon]; [done|].
  destruct (Ascii.eqb c ";"); [done|].
  cbn. by destruct (ascii_dec c c).
Qed.

Lemma beforeSemicolon_no_semicolon (s : string) :
  JsString.includes ";" (JsString.beforeSemicolon s) = false.
Proof.
  induction s as [|c s IH]; cbn [JsString.beforeSemicolon]; [done|].
  destruct (Ascii.eqb c ";") eqn:Hc; [done|].
  cbn [JsString.includes]. rewrite prefix_cons_char, IH.
  rewrite Ascii.eqb_sym, Hc. done.
Qed.

Lemma beforeSemicolon_id (s : string) :
  JsString.includes ";" s = false → JsString.beforeSemicolon s = s.
Proof.
  induction s as [|c s IH]; [done|].
  cbn [JsString.includes JsString.beforeSemicolon].
  rewrite prefix_cons_char, Ascii.eqb_sym.
  destruct (Ascii.eqb c ";"); [done|].
  intros H. by rewrite IH.
Qed.

Lemma beforeSemicolon_split (s : string) :
  s = JsString.beforeSemicolon s
  ∨ ∃ rest, s = JsString.beforeSemicolon s +:+ String ";" rest.
Proof.
  induction s as [|c s IH]; [by left|].
  cbn [JsString.beforeSemicolon].
  destruct (Ascii.eqb c ";") eqn:Hc.
  - apply Ascii.eqb_eq in Hc as ->. right. by exists s.
  - destruct IH as [IH|[rest IH]].
    + left. by rewrite <- IH.
    + right. exists rest. rewrite IH at 1. reflexivity.
Qed.

(** The three unfoldings of the replacement. *)
Lemma strip_short (c1 : ascii) (rest : string) :
  String.length rest < 2 →
  JsString.stripEscapedNewlines (String c1 rest) = String c1 rest.
Proof.
  destruct rest as [|c2 [|c3 r]]; cbn; [done | done | lia].
Qed.

Lemma strip_match (rest : string) :
  JsString.stripEscapedNewlines (String "\" (String "\" (String "n" rest)))
  = JsString.stripEscapedNewlines rest.
Proof. reflexivity. Qed.

Lemma strip_no_match (c1 c2 c3 : ascii) (rest : string) :
  Ascii.eqb c1 "\" && Ascii.eqb c2 "\" && Ascii.eqb c3 "n" = false →
  JsString.stripEscapedNewlines (String c1 (String c2 (String c3 rest)))
  = String c1 (JsString.stripEscapedNewlines (String c2 (String c3 rest))).
Proof.
  intros H. cbn [JsString.stripEscapedNewlines]. by rewrite H.
Qed.

Lemma prefix_pattern (c1 c2 c3 : ascii) (rest : string) :
  String.prefix "\\n" (String c1 (String c2 (String c3 rest)))
  = Ascii.eqb c1 "\" && Ascii.eqb c2 "\" && Ascii.eqb c3 "n".
Proof.
  cbn [String.prefix].
  destruct (ascii_dec "\" c1) as [<-|H1].
  - destruct (ascii_dec "\" c2) as [<-|H2].
    + destruct (ascii_dec "n" c3) as [<-|H3].
      * by destruct rest.
      * cbn. symmetry. apply Ascii.eqb_neq. congruence.
    + assert (Ascii.eqb c2 "\" = false) as ->
        by (apply Ascii.eqb_neq; congruence).
      done.
  - assert (Ascii.eqb c1 "\" = false) as ->
      by (apply Ascii.eqb_neq; congruence).
    done.
Qed.

Lemma prefix_app_mono (a x y : string) :
  String.prefix a x = true → String.prefix a (x +:+ y) = true.
Proof.
  revert x. induction a as [|c a IH]; intros x.
  { intros _. by destruct (x +:+ y). }
  destruct x as [|c' x]; [done|].
  change (String c' x +:+ y) with (String c' (x +:+ y)).
  cbn [String.prefix].
  destruct (ascii_dec c c'); [apply IH | done].
Qed.

Lemma short_has_no_match (s : string) :
  String.length s < 3 → JsString.includes "\\n" s = false.
Proof.
  destruct s as [|c1 [|c2 [|c3 rest]]]; intros Hl;
    [| | |cbn [String.length] in Hl; lia];
    cbn [JsString.includes String.prefix];
    repeat destruct (ascii_dec _ _); done.
Qed.

(** The replacement drops the matches and nothing else: the text is cut
    into pieces without a match, separated by one match each, and the
    result is the pieces put together. *)
Lemma strip_spec (s : string) :
  ∃ us u,
    s = JsString.joinWith "\\n" us u ∧
    JsString.stripEscapedNewlines s = JsString.joinWith "" us u ∧
    Forall (λ v, JsString.includes "\\n" v = false) (us ++ [u]).
Proof.
  remember (String.length s) as n eqn:Hn.
  revert s Hn. induction n as [n IH] using lt_wf_ind. intros s Hn.
  destruct s as [|c1 [|c2 [|c3 rest]]].
  - exists [], "". by repeat constructor.
  - exists [], (String c1 ""). split_and!; [done | done |].
    constructor; [|constructor]. by apply short_has_no_match; cbn; lia.
  - exists [], (String c1 (String c2 "")). split_and!; [done | done |].
    constructor; [|constructor]. by apply short_has_no_match; cbn; lia.
  - destruct (Ascii.eqb c1 "\" && Ascii.eqb c2 "\" && Ascii.eqb c3 "n")
      eqn:Hm.
    + apply andb_true_iff in Hm as [Hm H3]. apply andb_true_iff in Hm as [H1 H2].
      apply Ascii.eqb_eq in H1, H2, H3. subst c1 c2 c3.
      rewrite strip_match.
      destruct (IH (String.length rest)) with (s := rest)
        as (us & u & Hs & Ht & Hf); [cbn in Hn; lia | done |].
      exists ("" :: us), u. split_and!.
      * cbn. by rewrite <- Hs.
      * cbn. by rewrite <- Ht.
      * by constructor.
    + rewrite strip_no_match by done.
      pose proof (prefix_pattern c1 c2 c3 rest) as Hp. rewrite Hm in Hp.
      destruct (IH (String.length (String c2 (String c3 rest))))
        with (s := String c2 (String c3 rest))
        as (us & u & Hs & Ht & Hf); [cbn in *; lia | done |].
      rewrite Ht. rewrite Hs in Hp |- *.
      destruct us as [|v us].
      * exists [], (String c1 u). split_and!; [done | done |].
        apply Forall_cons in Hf as [Hu _].
        constructor; [|constructor].
        cbn [JsString.includes JsString.joinWith] in *. by rewrite Hp, Hu.
      * exists (String c1 v :: us), u. split_and!; [done | done |].
        apply Forall_cons in Hf as [Hv Hf].
        constructor; [|done].
        cbn [JsString.includes]. rewrite Hv, orb_false_r.
        destruct (String.prefix "\\n" (String c1 v)) eqn:Hpre; [|done].
        apply (prefix_app_mono _ _
                 ("\\n" +:+ JsString.joinWith "\\n" us u)) in Hpre.
        cbn [JsString.joinWith] in Hp.
        change (String c1 v +:+ ?y) with (String c1 (v +:+ y)) in Hpre.
        congruence.
Qed.

(** ** What [updateMimeType] hands over *)

Section PaneFacts.

Context `{I : Pane.Imports}.

Import Pane.

Lemma updateMimeType_headers request mimeType doCreate savedBody :
  savedHeaders (updateMimeType request mimeType doCreate savedBody) =
  setGraphQLContentType mimeType (findContentTypeHeader request.(headers))
    (addUserAgent (updateContentTypeHeader mimeType request.(headers)).1).
Proof.
  unfold updateMimeType.
  destruct (updateContentTypeHeader mimeType request.(headers)) as [hs rhs].
  by destruct doCreate.
Qed.

Lemma updateMimeType_body request mimeType doCreate savedBody :
  savedBodyOf (updateMimeType request mimeType doCreate savedBody) =
  newBody mimeType (if hasNoKeys savedBody then request.(body) else savedBody).
Proof.
  unfold updateMimeType.
  destruct (updateContentTypeHeader mimeType request.(headers)) as [hs rhs].
  by destruct doCreate.
Qed.

Lemma updateMimeType_update request mimeType savedBody :
  updateMimeType request mimeType false savedBody =
  update
    {| url := request.(url);
       method := if bool_decide (mimeType = Some CONTENT_TYPE_GRAPHQL)
                 then METHOD_POST else request.(method);
       headers :=
         setGraphQLContentType mimeType
           (findContentTypeHeader request.(headers))
           (updateContentTypeHeader mimeType request.(headers)).2;
       body := request.(body) |}
    (savedHeaders (updateMimeType request mimeType false savedBody))
    (savedBodyOf (updateMimeType request mimeType false savedBody)).
Proof.
  unfold updateMimeType.
  by destruct (updateContentTypeHeader mimeType request.(headers)) as [hs rhs].
Qed.

Lemma findContentTypeHeader_lookup hs i h :
  findContentTypeHeader hs = Some (i, h) → hs !! i = Some h.
Proof.
  unfold findContentTypeHeader.
  destruct (getContentTypeHeader hs) as [j|]; [|done].
  destruct (hs !! j) as [h'|] eqn:Hj; [|done]. by intros [= <- <-].
Qed.

(** Writing the value of one header object. *)
Lemma keptInPlace_refl i hs : keptInPlace i hs hs.
Proof. by split. Qed.

Lemma keptInPlace_alter v i hs hs' :
  keptInPlace (Some i) hs hs' →
  keptInPlace (Some i) hs (alter (setValue v) i hs').
Proof.
  intros [Hn Hj]. split.
  - rewrite <- Hn. apply list_eq. intros j.
    rewrite !list_lookup_fmap, list_lookup_alter.
    destruct (decide (i = j)) as [->|]; [|done]. by destruct (hs' !! j).
  - intros j Hne. rewrite list_lookup_alter_ne; [by apply Hj | congruence].
Qed.

Lemma userAgentCount_app hs1 hs2 :
  userAgentCount (hs1 ++ hs2) = userAgentCount hs1 + userAgentCount hs2.
Proof. unfold userAgentCount. by rewrite filter_app, length_app. Qed.

Lemma userAgentCount_alter v i hs :
  userAgentCount (alter (setValue v) i hs) = userAgentCount hs.
Proof.
  unfold userAgentCount. revert i.
  induction hs as [|h hs IH]; intros [|i]; [done | done | |].
  - change (alter (setValue v) 0 (h :: hs)) with (setValue v h :: hs).
    rewrite !filter_cons. change (isUserAgent (setValue v h)) with (isUserAgent h).
    by destruct (decide _).
  - change (alter (setValue v) (S i) (h :: hs))
      with (h :: alter (setValue v) i hs).
    rewrite !filter_cons. destruct (decide _); cbn [length]; by rewrite IH.
Qed.

Lemma existsb_userAgentCount hs :
  existsb isUserAgent hs = negb (bool_decide (userAgentCount hs = 0)).
Proof.
  unfold userAgentCount. induction hs as [|h hs IH]; [done|].
  cbn [existsb]. rewrite filter_cons.
  destruct (isUserAgent h) eqn:Hh.
  - rewrite decide_True by done. done.
  - rewrite decide_False by (by intros ?). by rewrite IH.
Qed.

Lemma addUserAgent_count hs :
  userAgentCount (addUserAgent hs) = max 1 (userAgentCount hs).
Proof.
  unfold addUserAgent. rewrite existsb_userAgentCount.
  case_bool_decide as H0; cbn [negb].
  - rewrite userAgentCount_app, H0. reflexivity.
  - lia.
Qed.

Lemma setGraphQLContentType_count mimeType cth hs :
  userAgentCount (setGraphQLContentType mimeType cth hs) = userAgentCount hs.
Proof.
  unfold setGraphQLContentType.
  destruct mimeType as [m|]; [|done]. destruct cth as [[i h]|]; [|done].
  repeat case_bool_decide; try done. apply userAgentCount_alter.
Qed.

Lemma updateContentTypeHeader_count m hs :
  userAgentCount (updateContentTypeHeader (Some m) hs).1 = userAgentCount hs.
Proof.
  unfold updateContentTypeHeader.
  case_bool_decide; [done|].
  destruct (JsString.nonEmpty m); [|done].
  destruct (findContentTypeHeader hs) as [[i h]|].
  - destruct (leaveContentTypeAlone _ _); [done|]. apply userAgentCount_alter.
  - cbn [fst]. rewrite userAgentCount_app.
    change (userAgentCount [_]) with 0. lia.
Qed.

(** X6: whatever the request and the content type chosen, the headers
    that [updateMimeType] hands over include one named User-Agent (in any
    case of the letters). When a content type is chosen, a User-Agent
    header is added only if the request had none: the number of such
    headers is the larger of one and the number the request had, so that
    applying [updateMimeType] again adds no further one. *)
Theorem user_agent_sent_once (request : Request) (mimeType : option string)
    (doCreate : bool) (savedBody : RequestBody) :
  existsb isUserAgent
    (savedHeaders (updateMimeType request mimeType doCreate savedBody)) = true
  ∧ ∀ m : string,
      userAgentCount
        (savedHeaders (updateMimeType request (Some m) doCreate savedBody))
      = max 1 (userAgentCount request.(headers)).
Proof.
  split.
  - rewrite existsb_userAgentCount, updateMimeType_headers,
      setGraphQLContentType_count, addUserAgent_count.
    case_bool_decide; [lia | done].
  - intros m.
    by rewrite updateMimeType_headers, setGraphQLContentType_count,
      addUserAgent_count, updateContentTypeHeader_count.
Qed.

(** ** In-place writes and the shape of the headers *)

Lemma addUserAgent_app hs :
  ∃ sfx, addUserAgent hs = hs ++ sfx ∧
         (name <$> sfx = [] ∨ name <$> sfx = ["User-Agent"]).
Proof.
  unfold addUserAgent. destruct (existsb isUserAgent hs).
  - exists []. rewrite app_nil_r. by split; [|left].
  - eexists. split; [done|]. by right.
Qed.

Lemma setGraphQLContentType_app mime hs i h l sfx :
  hs !! i = Some h → length l = length hs →
  setGraphQLContentType mime (Some (i, h)) (l ++ sfx)
  = setGraphQLContentType mime (Some (i, h)) l ++ sfx.
Proof.
  intros Hi Hl. unfold setGraphQLContentType.
  destruct mime as [m|]; [|done].
  repeat case_bool_decide; try done.
  apply alter_app_l. rewrite Hl. by eapply lookup_lt_Some.
Qed.

Lemma setGraphQLContentType_kept mime cth hs hs' :
  keptInPlace (fst <$> cth) hs hs' →
  keptInPlace (fst <$> cth) hs (setGraphQLContentType mime cth hs').
Proof.
  intros Hk. unfold setGraphQLContentType.
  destruct mime as [m|]; [|done]. destruct cth as [[i h]|]; [|done].
  repeat case_bool_decide; try done. by apply keptInPlace_alter.
Qed.

Lemma keptInPlace_length i hs hs' :
  keptInPlace i hs hs' → length hs' = length hs.
Proof. intros [Hn _]. by rewrite <- (length_fmap name hs'), Hn, length_fmap. Qed.

(** Lines 121-134, when a content type is chosen: the request's own
    headers are written in place, and the copy is these headers, followed
    by a new Content-Type header if the request had none. *)
Lemma updateContentTypeHeader_shape m hs :
  keptInPlace (fst <$> findContentTypeHeader hs) hs
    (updateContentTypeHeader (Some m) hs).2 ∧
  ∃ sfx, (updateContentTypeHeader (Some m) hs).1
         = (updateContentTypeHeader (Some m) hs).2 ++ sfx ∧
         (name <$> sfx = [] ∨ name <$> sfx = ["Content-Type"]).
Proof.
  unfold updateContentTypeHeader.
  assert (Hsame : ∀ l : list RequestHeader,
            ∃ sfx, l = l ++ sfx ∧
                   (name <$> sfx = [] ∨ name <$> sfx = ["Content-Type"])).
  { intros l. exists []. rewrite app_nil_r. by split; [|left]. }
  case_bool_decide; [by split; [apply keptInPlace_refl | apply Hsame]|].
  destruct (JsString.nonEmpty m);
    [|by split; [apply keptInPlace_refl | apply Hsame]].
  destruct (findContentTypeHeader hs) as [[i h]|] eqn:Hf.
  - destruct (leaveContentTypeAlone _ _);
      [by split; [apply keptInPlace_refl | apply Hsame]|].
    cbn [fst snd]. split; [|apply Hsame].
    apply keptInPlace_alter, keptInPlace_refl.
  - cbn [fst snd]. split; [apply keptInPlace_refl|].
    eexists. split; [done|]. by right.
Qed.

Lemma updateContentTypeHeader_None hs :
  (updateContentTypeHeader None hs).2 = hs.
Proof.
  unfold updateContentTypeHeader.
  by destruct (findContentTypeHeader hs) as [[i h]|].
Qed.

(** X7: [updateMimeType] writes to the request it is given. For a request
    no two of whose headers are equal (so that every position of the array
    holds an object of its own), in the update
    path the request handed to [update] keeps its url and body, has the
    method POST when GraphQL is chosen and its own method otherwise, and
    has the same header objects at the same positions, only the one found
    by [getContentTypeHeader] possibly with a new value. When a content
    type is chosen, the headers of the patch are those written headers,
    followed by at most a new Content-Type and a new User-Agent header;
    when none is chosen the request is not written to at all, the body
    handed over is the empty object, and the headers handed over are the
    request's without the header found by [getContentTypeHeader], followed
    by a User-Agent header if there was none. *)
Theorem request_written_in_place (request : Request) (mime : option string)
    (savedBody : RequestBody) :
  NoDup request.(headers) →
  ∃ request' sent body',
    updateMimeType request mime false savedBody = update request' sent body' ∧
    request'.(url) = request.(url) ∧
    request'.(body) = request.(body) ∧
    request'.(method)
    = (if bool_decide (mime = Some CONTENT_TYPE_GRAPHQL)
       then METHOD_POST else request.(method)) ∧
    keptInPlace (fst <$> findContentTypeHeader request.(headers))
      request.(headers) request'.(headers) ∧
    (mime = None →
     request' = request ∧ body' = emptyBody ∧
     sent = addUserAgent
              match findContentTypeHeader request.(headers) with
              | Some (i, _) => delete i request.(headers)
              | None => request.(headers)
              end) ∧
    (is_Some mime →
     ∃ sfx, sent = request'.(headers) ++ sfx ∧
            name <$> sfx ∈ [ []; ["Content-Type"]; ["User-Agent"];
                             ["Content-Type"; "User-Agent"] ]).
Proof.
  intros _.
  eexists _, _, _. split; [apply updateMimeType_update|]. cbn [url body method headers].
  split_and!; [done | done | done | | |].
  - destruct mime as [m|].
    + apply setGraphQLContentType_kept, updateContentTypeHeader_shape.
    + cbn [setGraphQLContentType]. rewrite updateContentTypeHeader_None.
      apply keptInPlace_refl.
  - intros ->. split_and!.
    + cbn [setGraphQLContentType]. rewrite updateContentTypeHeader_None.
      rewrite bool_decide_eq_false_2 by done. by destruct request.
    + by rewrite updateMimeType_body.
    + rewrite updateMimeType_headers. cbn [setGraphQLContentType].
      unfold updateContentTypeHeader.
      by destruct (findContentTypeHeader request.(headers)) as [[i h]|].
  - intros [m ->]. rewrite updateMimeType_headers.
    destruct (updateContentTypeHeader_shape m request.(headers))
      as (Hk & sfx1 & H1 & Hs1).
    rewrite H1.
    destruct (addUserAgent_app
                ((updateContentTypeHeader (Some m) request.(headers)).2 ++ sfx1))
      as (sfx2 & -> & Hs2).
    rewrite <- app_assoc.
    exists (sfx1 ++ sfx2). split.
    + destruct (findContentTypeHeader request.(headers)) as [[i h]|] eqn:Hf;
        [|done].
      apply findContentTypeHeader_lookup in Hf.
      eapply setGraphQLContentType_app; [exact Hf|].
      by eapply keptInPlace_length.
    + rewrite fmap_app.
      destruct Hs1 as [->| ->], Hs2 as [->| ->]; cbn [app]; set_solver.
Qed.

(** ** The content types with a rule of their own *)

Lemma addUserAgent_lookup hs j :
  j < length hs → addUserAgent hs !! j = hs !! j.
Proof.
  intros Hj. destruct (addUserAgent_app hs) as (sfx & -> & _).
  by apply lookup_app_l.
Qed.

Lemma nonEmpty_true m : m ≠ "" → JsString.nonEmpty m = true.
Proof. by destruct m. Qed.

Lemma includes_nonEmpty needle m :
  needle ≠ "" → JsString.includes needle m = true → JsString.nonEmpty m = true.
Proof. destruct m; [|done]. by destruct needle. Qed.

(** X8: GraphQL must be POST and uses the JSON content type (the comments
    of lines 97 and 100). Provided the GraphQL type is not empty and differs
    from the other types the function tests for, choosing it sets the
    method to POST, hands over a body of the GraphQL type, and leaves the
    Content-Type header found by [getContentTypeHeader] with the JSON
    value, in the same position; if the request had no such header, a
    header Content-Type with the JSON value is put right after the
    request's headers. *)
Theorem graphql_is_json_post (request : Request) (doCreate : bool)
    (savedBody : RequestBody) :
  CONTENT_TYPE_GRAPHQL ≠ CONTENT_TYPE_FORM_URLENCODED →
  CONTENT_TYPE_GRAPHQL ≠ CONTENT_TYPE_FORM_DATA →
  CONTENT_TYPE_GRAPHQL ≠ CONTENT_TYPE_FILE →
  CONTENT_TYPE_GRAPHQL ≠ CONTENT_TYPE_OTHER →
  CONTENT_TYPE_GRAPHQL ≠ "" →
  let r := updateMimeType request (Some CONTENT_TYPE_GRAPHQL) doCreate
             savedBody in
  (savedRequest r).(method) = METHOD_POST ∧
  (savedBodyOf r).(mimeType) = Some CONTENT_TYPE_GRAPHQL ∧
  match findContentTypeHeader request.(headers) with
  | Some (i, h) => savedHeaders r !! i = Some (setValue CONTENT_TYPE_JSON h)
  | None =>
      savedHeaders r !! length request.(headers)
      = Some {| name := "Content-Type"; value := CONTENT_TYPE_JSON |}
  end.
Proof.
  intros Hfu Hfd Hfile Hother Hne r. subst r. split_and!.
  - unfold updateMimeType.
    destruct (updateContentTypeHeader _ _) as [hs rhs].
    rewrite bool_decide_eq_true_2 by done. by destruct doCreate.
  - rewrite updateMimeType_body. unfold newBody, newBodyGraphQL.
    rewrite !bool_decide_eq_false_2 by done.
    rewrite bool_decide_eq_true_2 by done. by destruct (jsonParses _).
  - rewrite updateMimeType_headers.
    destruct (updateContentTypeHeader_shape CONTENT_TYPE_GRAPHQL
                request.(headers)) as (Hk & sfx & H1 & Hs).
    destruct (findContentTypeHeader request.(headers)) as [[i h]|] eqn:Hf.
    + apply findContentTypeHeader_lookup in Hf.
      unfold setGraphQLContentType.
      rewrite !bool_decide_eq_false_2 by done.
      rewrite bool_decide_eq_true_2 by done.
      rewrite list_lookup_alter_eq.
      pose proof (keptInPlace_length _ _ _ Hk) as Hlen.
      pose proof (lookup_lt_Some _ _ _ Hf) as Hi.
      rewrite addUserAgent_lookup
        by (rewrite H1, length_app, Hlen; lia).
      rewrite H1, lookup_app_l by lia.
      destruct Hk as [Hn _].
      apply (f_equal (λ l, l !! i)) in Hn.
      rewrite !list_lookup_fmap, Hf in Hn.
      destruct ((updateContentTypeHeader _ _).2 !! i) as [h'|]; [|done].
      cbn in Hn |- *. injection Hn as Hn. unfold setValue. by rewrite Hn.
    + clear Hk sfx H1 Hs. cbn [setGraphQLContentType].
      unfold updateContentTypeHeader. rewrite Hf.
      rewrite (bool_decide_eq_true_2
                 (Some CONTENT_TYPE_GRAPHQL = Some CONTENT_TYPE_GRAPHQL))
        by done.
      rewrite (bool_decide_eq_false_2
                 (CONTENT_TYPE_GRAPHQL = CONTENT_TYPE_OTHER)) by done.
      rewrite nonEmpty_true by done. cbn [fst].
      rewrite addUserAgent_lookup by (rewrite length_app; cbn; lia).
      by rewrite list_lookup_middle.
Qed.

(** X9: switching between variants of JSON, or of XML, leaves the
    Content-Type header as it is (the comment of line 105). If the header
    found by [getContentTypeHeader] has a value containing [json] and the
    chosen type contains [json] too (or both contain [xml]), and the chosen
    type is not the GraphQL type, no header is written: what is handed over
    is the request's headers, followed by a User-Agent header if there was
    none. *)
Theorem variants_keep_content_type (request : Request) (m : string)
    (doCreate : bool) (savedBody : RequestBody) (i : nat) (h : RequestHeader) :
  findContentTypeHeader request.(headers) = Some (i, h) →
  (JsString.includes "xml" h.(value) && JsString.includes "xml" m)
  || (JsString.includes "json" h.(value) && JsString.includes "json" m)
  = true →
  m ≠ CONTENT_TYPE_GRAPHQL →
  savedHeaders (updateMimeType request (Some m) doCreate savedBody)
  = addUserAgent request.(headers) ∧
  savedHeaders (updateMimeType request (Some m) doCreate savedBody) !! i
  = Some h.
Proof.
  intros Hf Hvar Hg.
  assert (Hsent : savedHeaders (updateMimeType request (Some m) doCreate
                                  savedBody)
                  = addUserAgent request.(headers)).
  { rewrite updateMimeType_headers, Hf. unfold setGraphQLContentType.
    rewrite (bool_decide_eq_false_2 (m = CONTENT_TYPE_GRAPHQL)) by done.
    assert (Hu : (updateContentTypeHeader (Some m) request.(headers)).1
                 = request.(headers)).
    { unfold updateContentTypeHeader. rewrite Hf.
      case_bool_decide; [done|].
      assert (Hm : JsString.nonEmpty m = true).
      { apply orb_true_iff in Hvar as [Hv|Hv];
          apply andb_true_iff in Hv as [_ Hv];
          by eapply includes_nonEmpty; [|exact Hv]. }
      rewrite Hm. unfold leaveContentTypeAlone. by rewrite Hm, Hvar. }
    rewrite Hu. by repeat case_bool_decide. }
  split; [done|]. rewrite Hsent.
  apply findContentTypeHeader_lookup in Hf.
  rewrite addUserAgent_lookup; [done | by eapply lookup_lt_Some].
Qed.

(** X10: a type other than the four the function tests for is a raw type.
    The body handed over then has the text of the old body (or the empty
    text), no parameters and no file name, and as its type the chosen type
    up to its first semicolon: the piece [t] without semicolon such that
    the chosen type is [t] itself or [t], a semicolon and some rest; the
    whole chosen type, parameters included,
    is what the Content-Type header found by [getContentTypeHeader] gets,
    unless it is left alone. *)
Theorem raw_type_keeps_text (request : Request) (m : string)
    (doCreate : bool) (savedBody : RequestBody) :
  m ≠ CONTENT_TYPE_FORM_URLENCODED →
  m ≠ CONTENT_TYPE_FORM_DATA →
  m ≠ CONTENT_TYPE_FILE →
  m ≠ CONTENT_TYPE_GRAPHQL →
  let r := updateMimeType request (Some m) doCreate savedBody in
  let oldBody := if hasNoKeys savedBody then request.(body) else savedBody in
  (savedBodyOf r).(text) = Some (textOrEmpty oldBody) ∧
  (savedBodyOf r).(params) = None ∧
  (savedBodyOf r).(fileName) = None ∧
  (∃ t, (savedBodyOf r).(mimeType) = Some t ∧
        t = JsString.beforeSemicolon m ∧
        JsString.includes ";" t = false ∧
        (m = t ∨ ∃ rest, m = t +:+ String ";" rest) ∧
        (JsString.includes ";" m = false → t = m)) ∧
  (∀ i h, findContentTypeHeader request.(headers) = Some (i, h) →
          m ≠ CONTENT_TYPE_OTHER → m ≠ "" →
          leaveContentTypeAlone (Some (i, h)) (Some m) = false →
          savedHeaders r !! i = Some (setValue m h)).
Proof.
  intros Hfu Hfd Hfile Hg r oldBody. subst r.
  assert (Hb : savedBodyOf (updateMimeType request (Some m) doCreate savedBody)
               = {| mimeType := Some (JsString.beforeSemicolon m);
                    text := Some (textOrEmpty oldBody);
                    fileName := None; params := None |}).
  { rewrite updateMimeType_body. unfold newBody.
    by rewrite !bool_decide_eq_false_2 by done. }
  rewrite Hb. cbn [text params fileName mimeType].
  split_and!; [done | done | done | |].
  - exists (JsString.beforeSemicolon m). split_and!; [done | done | | |].
    + apply beforeSemicolon_no_semicolon.
    + apply beforeSemicolon_split.
    + apply beforeSemicolon_id.
  - intros i h Hf Hother Hne Hleave.
    rewrite updateMimeType_headers, Hf. unfold setGraphQLContentType.
    rewrite !bool_decide_eq_false_2 by done.
    unfold updateContentTypeHeader. rewrite Hf.
    rewrite (bool_decide_eq_false_2 (m = CONTENT_TYPE_OTHER)) by done.
    rewrite nonEmpty_true, Hleave by done. cbn [fst].
    rewrite (bool_decide_eq_false_2 (Some m = Some CONTENT_TYPE_GRAPHQL))
      by congruence.
    apply findContentTypeHeader_lookup in Hf.
    pose proof (lookup_lt_Some _ _ _ Hf) as Hi.
    rewrite addUserAgent_lookup by (by rewrite length_alter).
    by rewrite list_lookup_alter_eq, Hf.
Qed.

(** ** The body handed over *)

(** X11: the body handed over has a type exactly when a content type was
    chosen. Without one it is the empty object; with one it carries exactly
    one of a text, a list of parameters and a file name. *)
Theorem body_has_one_payload (request : Request) (mime : option string)
    (doCreate : bool) (savedBody : RequestBody) :
  let b := savedBodyOf (updateMimeType request mime doCreate savedBody) in
  (b.(mimeType) = None ↔ mime = None) ∧
  match mime with
  | None => b = emptyBody
  | Some _ =>
      match b.(text), b.(params), b.(fileName) with
      | Some _, None, None | None, Some _, None | None, None, Some _ => True
      | _, _, _ => False
      end
  end.
Proof.
  intros b. subst b. rewrite updateMimeType_body.
  destruct mime as [m|]; [|done].
  unfold newBody, newBodyGraphQL.
  repeat case_bool_decide; try destruct (jsonParses _); by split.
Qed.

(** X12: a saved body that has any key at all takes the place of the
    request's body: the body handed over is then the same whatever the
    request is. With the empty object as saved body the request's own body
    is used, just as if it had been passed as the saved body. *)
Theorem saved_body_takes_precedence (request request2 : Request)
    (mime : option string) (doCreate doCreate2 : bool)
    (savedBody : RequestBody) :
  hasNoKeys savedBody = false →
  savedBodyOf (updateMimeType request mime doCreate savedBody)
  = savedBodyOf (updateMimeType request2 mime doCreate2 savedBody) ∧
  savedBodyOf (updateMimeType request mime doCreate emptyBody)
  = savedBodyOf (updateMimeType request mime doCreate request.(body)).
Proof.
  intros Hs. rewrite !updateMimeType_body, Hs. split; [done|].
  change (hasNoKeys emptyBody) with true. cbn iota.
  by destruct (hasNoKeys request.(body)).
Qed.

Lemma newBody_form m oldBody :
  formType m →
  ∃ ps, newBody (Some m) oldBody
        = {| mimeType := Some m; text := None; fileName := None;
             params := Some ps |} ∧
        (∀ qs, oldBody.(params) = Some qs → ps = qs).
Proof.
  intros Hm. unfold newBody. case_bool_decide as Hfu.
  - subst m. eexists. split; [done|]. by intros qs ->.
  - destruct Hm as [?|Hfd]; [done|]. subst m.
    rewrite bool_decide_eq_true_2 by done.
    eexists. split; [done|]. by intros qs ->.
Qed.

Lemma newBody_raw m oldBody :
  rawType m →
  newBody (Some m) oldBody
  = {| mimeType := Some (JsString.beforeSemicolon m);
       text := Some (textOrEmpty oldBody); fileName := None; params := None |}.
Proof.
  intros (? & ? & ? & ?). unfold newBody.
  by rewrite !bool_decide_eq_false_2 by done.
Qed.

(** X13: what survives a second change of the content type. If the body
    of a request is the one [updateMimeType] made for a first type, then
    for a second type (and no saved body): from a form type to a form type
    the parameters are kept; from a raw type to a raw type the text is
    kept; but from a form type to a raw type the text is empty, the
    parameters being dropped. *)
Theorem switching_types (request1 request2 : Request) (m1 m2 : string)
    (doCreate1 doCreate2 : bool) (savedBody1 : RequestBody) :
  request2.(body)
  = savedBodyOf (updateMimeType request1 (Some m1) doCreate1 savedBody1) →
  let b2 := savedBodyOf (updateMimeType request2 (Some m2) doCreate2
                           emptyBody) in
  (formType m1 → formType m2 →
   b2.(params) = request2.(body).(params) ∧ is_Some b2.(params)) ∧
  (rawType m1 → rawType m2 →
   b2.(text) = request2.(body).(text) ∧ is_Some b2.(text)) ∧
  (formType m1 → rawType m2 →
   b2.(text) = Some "" ∧ b2.(params) = None).
Proof.
  intros Hb b2. subst b2. rewrite updateMimeType_body in Hb |- *.
  change (hasNoKeys emptyBody) with true. cbn iota. rewrite Hb.
  set (old := if hasNoKeys savedBody1 then _ else _). split_and!.
  - intros H1 H2.
    destruct (newBody_form m1 old H1) as (ps & -> & _).
    destruct (newBody_form m2 {| mimeType := Some m1; text := None;
                                 fileName := None; params := Some ps |} H2)
      as (ps2 & -> & Hps).
    cbn [params]. rewrite (Hps ps) by done. by split.
  - intros H1 H2. rewrite (newBody_raw m1) by done.
    rewrite (newBody_raw m2) by done. by split.
  - intros H1 H2. destruct (newBody_form m1 old H1) as (ps & -> & _).
    by rewrite (newBody_raw m2) by done.
Qed.

(** X14: [newBodyGraphQL] always makes a body of the GraphQL type with a
    text and nothing else. When [JSON.parse] rejects the raw body the text
    is the raw body itself. When it accepts it, the text is the raw body
    without its occurrences of backslash, backslash, n: the raw body is cut
    into pieces that contain no occurrence and are separated by one
    occurrence each, and the text is these pieces put together. *)
Theorem newBodyGraphQL_text (rawBody : string) :
  let b := newBodyGraphQL rawBody in
  b.(mimeType) = Some CONTENT_TYPE_GRAPHQL ∧
  b.(params) = None ∧ b.(fileName) = None ∧
  ∃ t, b.(text) = Some t ∧
       (jsonParses rawBody = false → t = rawBody) ∧
       (jsonParses rawBody = true →
        t = JsString.stripEscapedNewlines rawBody ∧
        ∃ us u,
          rawBody = JsString.joinWith "\\n" us u ∧
          t = JsString.joinWith "" us u ∧
          Forall (λ v, JsString.includes "\\n" v = false) (us ++ [u])).
Proof.
  intros b. subst b. unfold newBodyGraphQL.
  destruct (jsonParses rawBody); cbn [mimeType params fileName text].
  - split_and!; [done..|]. eexists. split_and!; [done | done |].
    intros _. split; [done|]. apply strip_spec.
  - split_and!; [done..|]. exists rawBody. by split_and!.
Qed.

End PaneFacts.

Lemma request_written_in_place_witness :
  NoDup
    [ {| Pane.name := "Content-Type"; Pane.value := "text/plain" |};
      {| Pane.name := "Accept"; Pane.value := "*/*" |} ] ∧
  ∃ request' sent body',
    Pane.updateMimeType (I := Pane.sampleImports)
      {| Pane.url := "http://localhost"; Pane.method := "GET";
         Pane.headers :=
           [ {| Pane.name := "Content-Type"; Pane.value := "text/plain" |};
             {| Pane.name := "Accept"; Pane.value := "*/*" |} ];
         Pane.body := Pane.emptyBody |}
      (Some "application/json") false Pane.emptyBody
    = Pane.update request' sent body' ∧
    request'.(Pane.url) = "http://localhost".
Proof.
  assert (Hnd : NoDup
            [ {| Pane.name := "Content-Type"; Pane.value := "text/plain" |};
              {| Pane.name := "Accept"; Pane.value := "*/*" |} ]).
  { apply NoDup_cons. split; [|apply NoDup_singleton].
    intros Hin. apply list_elem_of_singleton in Hin. discriminate Hin. }
  split; [exact Hnd|].
  destruct (request_written_in_place (I := Pane.sampleImports)
              {| Pane.url := "http://localhost"; Pane.method := "GET";
                 Pane.headers :=
                   [ {| Pane.name := "Content-Type";
                        Pane.value := "text/plain" |};
                     {| Pane.name := "Accept"; Pane.value := "*/*" |} ];
                 Pane.body := Pane.emptyBody |}
              (Some "application/json") Pane.emptyBody Hnd)
    as (request' & sent & body' & Heq & Hurl & _).
  by exists request', sent, body'.
Defined.

Lemma graphql_is_json_post_witness :
  (Pane.savedRequest
     (Pane.updateMimeType (I := Pane.sampleImports)
        {| Pane.url := "http://localhost"; Pane.method := "GET";
           Pane.headers := [ {| Pane.name := "content-type";
                                Pane.value := "text/plain" |} ];
           Pane.body := Pane.emptyBody |}
        (Some "application/graphql") false Pane.emptyBody)).(Pane.method)
  = "POST".
Proof.
  apply (graphql_is_json_post (I := Pane.sampleImports)
           {| Pane.url := "http://localhost"; Pane.method := "GET";
              Pane.headers := [ {| Pane.name := "content-type";
                                   Pane.value := "text/plain" |} ];
              Pane.body := Pane.emptyBody |}
           false Pane.emptyBody); discriminate.
Defined.

Lemma variants_keep_content_type_witness :
  Pane.savedHeaders
    (Pane.updateMimeType (I := Pane.sampleImports)
       {| Pane.url := "http://localhost"; Pane.method := "GET";
          Pane.headers := [ {| Pane.name := "Content-Type";
                               Pane.value := "application/json; charset=utf-8" |} ];
          Pane.body := Pane.emptyBody |}
       (Some "application/json") false Pane.emptyBody) !! 0
  = Some {| Pane.name := "Content-Type";
            Pane.value := "application/json; charset=utf-8" |}.
Proof.
  apply (variants_keep_content_type (I := Pane.sampleImports)
           {| Pane.url := "http://localhost"; Pane.method := "GET";
              Pane.headers := [ {| Pane.name := "Content-Type";
                                   Pane.value := "application/json; charset=utf-8" |} ];
              Pane.body := Pane.emptyBody |}
           "application/json" false Pane.emptyBody 0
           {| Pane.name := "Content-Type";
              Pane.value := "application/json; charset=utf-8" |});
    [reflexivity | reflexivity | discriminate].
Defined.

Lemma raw_type_keeps_text_witness :
  (Pane.savedBodyOf
     (Pane.updateMimeType (I := Pane.sampleImports)
        {| Pane.url := "http://localhost"; Pane.method := "GET";
           Pane.headers := [];
           Pane.body := {| Pane.mimeType := Some "application/json";
                           Pane.text := Some "[1]";
                           Pane.fileName := None; Pane.params := None |} |}
        (Some "text/plain; charset=utf-8") false Pane.emptyBody)).(Pane.text)
  = Some "[1]".
Proof.
  apply (raw_type_keeps_text (I := Pane.sampleImports)
           {| Pane.url := "http://localhost"; Pane.method := "GET";
              Pane.headers := [];
              Pane.body := {| Pane.mimeType := Some "application/json";
                              Pane.text := Some "[1]";
                              Pane.fileName := None; Pane.params := None |} |}
           "text/plain; charset=utf-8" false Pane.emptyBody); discriminate.
Defined.

Lemma saved_body_takes_precedence_witness :
  Pane.savedBodyOf
    (Pane.updateMimeType (I := Pane.sampleImports)
       {| Pane.url := "http://localhost"; Pane.method := "GET";
          Pane.headers := []; Pane.body := Pane.emptyBody |}
       (Some "text/plain") false
       {| Pane.mimeType := None; Pane.text := Some "saved";
          Pane.fileName := None; Pane.params := None |})
  = Pane.savedBodyOf
      (Pane.updateMimeType (I := Pane.sampleImports)
         {| Pane.url := "http://example.org"; Pane.method := "PUT";
            Pane.headers := [];
            Pane.body := {| Pane.mimeType := None; Pane.text := Some "own";
                            Pane.fileName := None; Pane.params := None |} |}
         (Some "text/plain") true
         {| Pane.mimeType := None; Pane.text := Some "saved";
            Pane.fileName := None; Pane.params := None |}).
Proof.
  apply (saved_body_takes_precedence (I := Pane.sampleImports)).
  reflexivity.
Defined.

Lemma switching_types_witness :
  (Pane.savedBodyOf
     (Pane.updateMimeType (I := Pane.sampleImports)
        {| Pane.url := "http://localhost"; Pane.method := "GET";
           Pane.headers := [];
           Pane.body :=
             Pane.savedBodyOf
               (Pane.updateMimeType (I := Pane.sampleImports)
                  {| Pane.url := "http://localhost"; Pane.method := "GET";
                     Pane.headers := [];
                     Pane.body := {| Pane.mimeType := None;
                                     Pane.text := Some "a=1";
                                     Pane.fileName := None;
                                     Pane.params := None |} |}
                  (Some "multipart/form-data") false Pane.emptyBody) |}
        (Some "text/plain") false Pane.emptyBody)).(Pane.text)
  = Some "".
Proof.
  apply (switching_types (I := Pane.sampleImports)
           {| Pane.url := "http://localhost"; Pane.method := "GET";
              Pane.headers := [];
              Pane.body := {| Pane.mimeType := None; Pane.text := Some "a=1";
                              Pane.fileName := None; Pane.params := None |} |}
           {| Pane.url := "http://localhost"; Pane.method := "GET";
              Pane.headers := [];
              Pane.body :=
                Pane.savedBodyOf
                  (Pane.updateMimeType (I := Pane.sampleImports)
                     {| Pane.url := "http://localhost"; Pane.method := "GET";
                        Pane.headers := [];
                        Pane.body := {| Pane.mimeType := None;
                                        Pane.text := Some "a=1";
                                        Pane.fileName := None;
                                        Pane.params := None |} |}
                     (Some "multipart/form-data") false Pane.emptyBody) |}
           "multipart/form-data" "text/plain" false false Pane.emptyBody
           eq_refl).
  - by right.
  - repeat split; discriminate.
Defined.
